(** * grok_meetu front end: the recommendation form and its submit handler

    A shallow embedding of [frontend/src/App.js] and
    [frontend/src/pages/HelloWorld/index.js].

    - [JS] holds the fragment of the JavaScript runtime the two components
      rely on: binary64 numbers with [Number.prototype.toFixed] and the
      Number-to-string conversion, parsed JSON values with truthiness and
      string conversion, and the errors a handler can catch.
    - [Async] is the effect structure of an [async] function body: normal,
      [return] and [throw] completions, synchronous effects, [await] as a
      suspension point answered by the network, and [try]/[catch]/[finally].
    - [App] and [HW] are the two components: state, handler and render. *)

From Stdlib Require Import ZArith QArith Qround Qabs List String Ascii Bool Lia.
From Stdlib Require Import Lqa SpecFloat Decimal DecimalString DecimalPos DecimalN.
Import ListNotations.

#[local] Open Scope string_scope.
#[local] Open Scope Z_scope.
#[local] Set Warnings "-register-all".

Module JS.

(** ** Numbers

    A JavaScript number is an IEEE 754 binary64 value; [spec_float] is that
    value decoded: a signed zero, a signed infinity, NaN, or
    [(-1)^s * m * 2^e]. *)

Definition number : Set := spec_float.

Definition pow2 (e : Z) : Q :=
  if 0 <=? e then inject_Z (2 ^ e) else 1 # Z.to_pos (2 ^ (- e)).

Definition pow10 (e : Z) : Q :=
  if 0 <=? e then inject_Z (10 ^ e) else 1 # Z.to_pos (10 ^ (- e)).

(** The magnitude [m * 2^e] of a finite non-zero number, as an exact
    rational. *)
Definition magnitude (m : positive) (e : Z) : Q :=
  (inject_Z (Zpos m) * pow2 e)%Q.

(** The mathematical value of a number (ECMA-262 writes it with a blackboard
    R); zero for the values that have none. *)
Definition real (x : number) : Q :=
  match x with
  | S754_finite s m e => if s then (- magnitude m e)%Q else magnitude m e
  | _ => 0%Q
  end.

Definition is_negative (x : number) : bool :=
  match x with
  | S754_finite s _ _ => s
  | _ => false
  end.

(** The decimal digits of a non-negative integer, most significant first;
    ["0"] for zero. *)
Definition digits (n : Z) : string :=
  NilEmpty.string_of_uint (N.to_uint (Z.to_N n)).

Fixpoint zeros (n : nat) : string :=
  match n with
  | O => ""
  | S n' => String "0" (zeros n')
  end.

Fixpoint drop (n : nat) (s : string) : string :=
  match n, s with
  | O, _ => s
  | S n', String _ s' => drop n' s'
  | S _, EmptyString => EmptyString
  end.

Definition take (n : nat) (s : string) : string := substring 0 n s.

(** *** Number::toString (ECMA-262 6.1.6.1.20, radix 10)

    For a finite positive [x] the conversion picks integers [n], [k], [s]
    with [10^(k-1) <= s < 10^k], with [s * 10^(n-k)] rounding to [x], and
    with [k] as small as possible.  [rounds_to m e v] says that the rational
    [v] rounds to [m * 2^e] under round-to-nearest, ties-to-even: [v] lies
    between the midpoints to the two neighbours of [m * 2^e], the midpoints
    themselves included when [m] is even. *)

Definition lower_midpoint (m : positive) (e : Z) : Q :=
  if (Zpos m =? 2 ^ 52) && (-1074 <? e)
  then (inject_Z (4 * Zpos m - 1) * pow2 (e - 2))%Q
  else (inject_Z (2 * Zpos m - 1) * pow2 (e - 1))%Q.

Definition upper_midpoint (m : positive) (e : Z) : Q :=
  (inject_Z (2 * Zpos m + 1) * pow2 (e - 1))%Q.

Definition Qleb (a b : Q) : bool := Qle_bool a b.
Definition Qltb (a b : Q) : bool := negb (Qle_bool b a).

Definition rounds_to (m : positive) (e : Z) (v : Q) : bool :=
  if Z.even (Zpos m)
  then Qleb (lower_midpoint m e) v && Qleb v (upper_midpoint m e)
  else Qltb (lower_midpoint m e) v && Qltb v (upper_midpoint m e).

(** The integer [n0] with [10^(n0-1) <= x < 10^n0], found upwards from a
    lower estimate. *)
Fixpoint magnitude10_from (fuel : nat) (n : Z) (x : Q) : Z :=
  match fuel with
  | O => n
  | S fuel' => if Qltb x (pow10 n) then n else magnitude10_from fuel' (n + 1) x
  end.

Definition magnitude10 (m : positive) (e : Z) : Z :=
  let l := Z.log2 (Zpos m) + e in
  magnitude10_from 8 (l * 30103 / 100000 - 2) (magnitude m e).

(** The candidate [s] with [k] digits at decimal exponent [n]: the integer
    nearest to [x / 10^(n-k)] (the even one of two), kept if it has [k]
    digits and rounds back to [x]; else its two neighbours are tried.  A
    candidate can exist at [n0] and, when [10^n0] rounds to [x] too, at
    [n0 + 1]. *)
Definition nearest_integer (q : Q) : Z :=
  let f := Qfloor q in
  let r := (q - inject_Z f)%Q in
  if Qltb r (1 # 2) then f
  else if Qltb (1 # 2) r then f + 1
  else if Z.even f then f else f + 1.

Definition candidate (m : positive) (e : Z) (n k : Z) : option Z :=
  let scale := pow10 (n - k) in
  let ok s :=
    (10 ^ (k - 1) <=? s) && (s <? 10 ^ k)
    && rounds_to m e (inject_Z s * scale)%Q in
  let s := nearest_integer (magnitude m e / scale)%Q in
  if ok s then Some s
  else if ok (s - 1) then Some (s - 1)
  else if ok (s + 1) then Some (s + 1)
  else None.

(** Of a candidate at [n0] and one at [n0 + 1], the one whose value is
    closer to [x]. *)
Definition closer (m : positive) (e : Z) (n0 k : Z) (s0 s1 : Z) : Z * Z * Z :=
  let x := magnitude m e in
  let d0 := Qabs (inject_Z s0 * pow10 (n0 - k) - x)%Q in
  let d1 := Qabs (inject_Z s1 * pow10 (n0 + 1 - k) - x)%Q in
  if Qleb d0 d1 then (n0, k, s0) else (n0 + 1, k, s1).

Fixpoint shortest_from (fuel : nat) (m : positive) (e : Z) (n0 k : Z)
  : Z * Z * Z :=
  match fuel with
  | O => (n0, k, 0)
  | S fuel' =>
      match candidate m e n0 k, candidate m e (n0 + 1) k with
      | Some s0, Some s1 => closer m e n0 k s0 s1
      | Some s0, None => (n0, k, s0)
      | None, Some s1 => (n0 + 1, k, s1)
      | None, None => shortest_from fuel' m e n0 (k + 1)
      end
  end.

(** [(n, k, s)] of step 5 of Number::toString. *)
Definition shortest (m : positive) (e : Z) : Z * Z * Z :=
  shortest_from 17 m e (magnitude10 m e) 1.

Definition exponent_part (n : Z) : string :=
  "e" ++ (if 0 <=? n - 1 then "+" else "-") ++ digits (Z.abs (n - 1)).

Definition Number_toString_positive (m : positive) (e : Z) : string :=
  let '(n, k, s) := shortest m e in
  let d := digits s in
  if (k <=? n) && (n <=? 21) then
    d ++ zeros (Z.to_nat (n - k))
  else if (0 <? n) && (n <=? 21) then
    take (Z.to_nat n) d ++ "." ++ drop (Z.to_nat n) d
  else if (-6 <? n) && (n <=? 0) then
    "0." ++ zeros (Z.to_nat (- n)) ++ d
  else if k =? 1 then
    d ++ exponent_part n
  else
    take 1 d ++ "." ++ drop 1 d ++ exponent_part n.

Definition Number_toString (x : number) : string :=
  match x with
  | S754_nan => "NaN"
  | S754_zero _ => "0"
  | S754_infinity s => if s then "-Infinity" else "Infinity"
  | S754_finite s m e =>
      (if s then "-" else "") ++ Number_toString_positive m e
  end.

(** *** Number.prototype.toFixed (ECMA-262 21.1.3.3), for [0 <= f <= 100]

    A value that is not finite, or whose magnitude is at least [10^21], is
    converted by Number::toString.  Otherwise [n] is the integer for which
    [n / 10^f - x] is as close to zero as possible, the larger one when two
    are equally close, and the result is the digits of [n] with a point
    before the last [f] of them. *)

Definition nearest_scaled (f : nat) (x : Q) : Z :=
  Qfloor (x * inject_Z (10 ^ Z.of_nat f) + (1 # 2))%Q.

Definition point_before_last (f : nat) (m : string) : string :=
  match f with
  | O => m
  | _ =>
      let k := String.length m in
      let m' := if (k <=? f)%nat then zeros (f + 1 - k) ++ m else m in
      let k' := if (k <=? f)%nat then (f + 1)%nat else k in
      take (k' - f) m' ++ "." ++ drop (k' - f) m'
  end.

Definition toFixed (f : nat) (x : number) : string :=
  match x with
  | S754_nan | S754_infinity _ => Number_toString x
  | S754_zero _ => point_before_last f (digits 0)
  | S754_finite s m e =>
      let sign := if s then "-" else "" in
      let x' := magnitude m e in
      if Qleb (pow10 21) x'
      then sign ++ Number_toString (S754_finite false m e)
      else sign ++ point_before_last f (digits (nearest_scaled f x'))
  end.

(** ** Values

    What [JSON.parse] produces, and [undefined] for what is absent. *)

Inductive value : Type :=
| VUndefined
| VNull
| VBool (b : bool)
| VNumber (x : number)
| VString (s : string)
| VArray (items : list value)
| VObject (fields : list (string * value)).

(** ToBoolean: [undefined], [null], [false], zero, NaN and the empty string
    are falsy. *)
Definition ToBoolean (v : value) : bool :=
  match v with
  | VUndefined | VNull => false
  | VBool b => b
  | VNumber (S754_zero _) | VNumber S754_nan => false
  | VNumber _ => true
  | VString s => negb (s =? "")%string
  | VArray _ | VObject _ => true
  end.

(** Whether an object has an own property of the given name. *)
Definition has_key (key : string) (fields : list (string * value)) : bool :=
  existsb (fun kv => (fst kv =? key)%string) fields.

(** ToString, as a template literal applies it; [None] when the conversion
    throws a [TypeError].  A plain object is ["[object Object]"], the result
    of [Object.prototype.toString], unless it has an own property
    [toString]: what [JSON.parse] puts there is never callable,
    [Object.prototype.valueOf] gives back the object itself, and the
    conversion to a primitive value throws.  An array is its items joined by
    commas, [null] and [undefined] items left empty; the conversion of an
    item can throw. *)
Fixpoint ToString (v : value) : option string :=
  match v with
  | VUndefined => Some "undefined"
  | VNull => Some "null"
  | VBool b => Some (if b then "true" else "false")
  | VNumber x => Some (Number_toString x)
  | VString s => Some s
  | VArray items =>
      let item v :=
        match v with
        | VUndefined | VNull => Some ""
        | _ => ToString v
        end in
      (fix join (l : list value) : option string :=
         match l with
         | [] => Some ""
         | [v] => item v
         | v :: l' =>
             match item v, join l' with
             | Some a, Some b => Some (a ++ "," ++ b)
             | _, _ => None
             end
         end) items
  | VObject fields =>
      if has_key "toString" fields then None else Some "[object Object]"
  end.

(** [v?.key] for a key that no prototype defines: the field of an object,
    [undefined] on anything else. *)
Fixpoint lookup (key : string) (fields : list (string * value)) : value :=
  match fields with
  | [] => VUndefined
  | (k, v) :: fields' => if (k =? key)%string then v else lookup key fields'
  end.

Definition get (v : value) (key : string) : value :=
  match v with
  | VObject fields => lookup key fields
  | _ => VUndefined
  end.

(** [a || b] *)
Definition or_else (a b : value) : value := if ToBoolean a then a else b.

(** ** Responses and errors

    An axios response carries the HTTP status and the parsed body.  What a
    handler catches is an axios error, whose [response] is absent when no
    response arrived, or a [TypeError] raised by the language itself, which
    has no [response] property at all. *)

Record response (D : Type) : Type := { status : Z; data : D }.
Arguments status {D} _.
Arguments data {D} _.

Inductive error : Type :=
| AxiosError (msg : string) (resp : option (response value))
| TypeError (msg : string).

Definition message (err : error) : string :=
  match err with
  | AxiosError msg _ => msg
  | TypeError msg => msg
  end.

(** The [TypeError]s of the language that the two components can meet, with
    the messages the engine gives them. *)
Definition cannot_convert : error :=
  TypeError "Cannot convert object to primitive value".

Definition cannot_read (property : string) : error :=
  TypeError ("Cannot read properties of null (reading '" ++ property ++ "')").

Definition cannot_assign : error :=
  TypeError "Assignment to constant variable.".

(** [err.response] *)
Definition error_response (err : error) : option (response value) :=
  match err with
  | AxiosError _ resp => resp
  | TypeError _ => None
  end.

(** [err.response?.status] *)
Definition response_status (err : error) : option Z :=
  option_map status (error_response err).

(** [err.response?.data] *)
Definition response_data (err : error) : value :=
  match error_response err with
  | Some resp => data resp
  | None => VUndefined
  end.

(** A settled promise. *)
Inductive settled (D : Type) : Type :=
| Fulfilled (resp : response D)
| Rejected (err : error).
Arguments Fulfilled {D} _.
Arguments Rejected {D} _.

(** ** Rendered output

    A React element: text, or a tag with an optional [key], its props and
    its children.  A child that is [false], [null] or the empty string
    renders nothing and is left out of the list. *)

Inductive prop : Type :=
| PString (s : string)
| PNumber (x : number)
| PBool (b : bool)
| PHandler (name : string).

Inductive element : Type :=
| Text (s : string)
| Elem (tag : string) (key : option string)
       (props : list (string * prop)) (children : list element).

(** The text a rendered element shows: its text nodes in document order. *)
Fixpoint text_content (e : element) : string :=
  match e with
  | Text s => s
  | Elem _ _ _ children =>
      (fix concat (l : list element) : string :=
         match l with
         | [] => ""
         | c :: l' => text_content c ++ concat l'
         end) children
  end.

Fixpoint prop_of (name : string) (props : list (string * prop))
  : option prop :=
  match props with
  | [] => None
  | (k, v) :: props' =>
      if (k =? name)%string then Some v else prop_of name props'
  end.

Definition has_class (c : string) (e : element) : bool :=
  match e with
  | Elem _ _ props _ =>
      match prop_of "className" props with
      | Some (PString c') => (c' =? c)%string
      | _ => false
      end
  | Text _ => false
  end.

Definition key_of (e : element) : option string :=
  match e with
  | Elem _ key _ _ => key
  | Text _ => None
  end.

Definition is_submit_button (e : element) : bool :=
  match e with
  | Elem tag _ props _ =>
      (tag =? "button")%string
      && match prop_of "type" props with
         | Some (PString t) => (t =? "submit")%string
         | _ => false
         end
  | Text _ => false
  end.

Definition is_disabled (e : element) : bool :=
  match e with
  | Elem _ _ props _ =>
      match prop_of "disabled" props with
      | Some (PBool b) => b
      | _ => false
      end
  | Text _ => false
  end.

(** The elements of a tree that satisfy [p], in document order. *)
Fixpoint select (p : element -> bool) (e : element) : list element :=
  ((if p e then [e] else [])
   ++ match e with
      | Text _ => []
      | Elem _ _ _ children =>
          (fix each (l : list element) : list element :=
             match l with
             | [] => []
             | c :: l' => select p c ++ each l'
             end) children
      end)%list.

(** A form offers a submission when one of its submit buttons is enabled: a
    disabled button cannot be activated, and the browser's implicit
    submission goes through the form's default button.  Whether a submission
    that is offered goes through depends on the validation of the inputs as
    well. *)
Definition offers_submit (view : element) : bool :=
  existsb (fun b => negb (is_disabled b)) (select is_submit_button view).

End JS.

Module Async.

(** ** Completions

    A statement completes normally, by [return], or by [throw].  The two
    handlers return no value, so [Return] carries none. *)

Inductive completion (A : Type) : Type :=
| Normal (a : A)
| Return
| Throw (err : JS.error).
Arguments Normal {A} _.
Arguments Return {A}.
Arguments Throw {A} _.

Section Program.

(** [Action] is a synchronous effect of the component (a state setter, a
    log line); [Request] is what an [await]ed call sends and [Answer] how
    its promise settles. *)
Context {Action Request Answer : Type}.

Inductive prog (A : Type) : Type :=
| Done (c : completion A)
| Perform (a : Action) (k : prog A)
| Await (r : Request) (k : Answer -> prog A).
Arguments Done {A} _.
Arguments Perform {A} _ _.
Arguments Await {A} _ _.

Definition ret {A} (a : A) : prog A := Done (Normal a).
Definition throw {A} (err : JS.error) : prog A := Done (Throw err).
Definition return_ {A} : prog A := Done Return.
Definition perform (a : Action) : prog unit := Perform a (ret tt).

(** [${v}] in a template literal: the string of [v], or the [TypeError] of
    its conversion. *)
Definition interpolate (v : JS.value) : prog string :=
  match JS.ToString v with
  | Some s => ret s
  | None => throw JS.cannot_convert
  end.

(** [p; f]: what follows runs only after a normal completion. *)
Fixpoint bind {A B} (p : prog A) (f : A -> prog B) : prog B :=
  match p with
  | Done (Normal a) => f a
  | Done Return => Done Return
  | Done (Throw err) => Done (Throw err)
  | Perform a k => Perform a (bind k f)
  | Await r k => Await r (fun x => bind (k x) f)
  end.

(** [try { p } catch (err) { h err }] *)
Fixpoint try_catch {A} (p : prog A) (h : JS.error -> prog A) : prog A :=
  match p with
  | Done (Throw err) => h err
  | Done c => Done c
  | Perform a k => Perform a (try_catch k h)
  | Await r k => Await r (fun x => try_catch (k x) h)
  end.

(** [try { p } finally { f }]: [f] runs whatever the completion of [p];
    that completion stands unless [f] itself returns or throws. *)
Fixpoint try_finally {A} (p : prog A) (f : prog unit) : prog A :=
  match p with
  | Done c => bind f (fun _ => Done c)
  | Perform a k => Perform a (try_finally k f)
  | Await r k => Await r (fun x => try_finally (k x) f)
  end.

Definition try_catch_finally {A} (p : prog A) (h : JS.error -> prog A)
  (f : prog unit) : prog A :=
  try_finally (try_catch p h) f.

(** ** Running a handler

    The network answers each request; every action updates the store.
    The trace keeps both in the order they happen. *)

Inductive event : Type :=
| Did (a : Action)
| Sent (r : Request).

Context {Store : Type}.
Variable network : Request -> Answer.
Variable apply : Action -> Store -> Store.

Record result (A : Type) : Type :=
  { outcome : completion A; final : Store; trace : list event }.
Arguments outcome {A} _.
Arguments final {A} _.
Arguments trace {A} _.

Fixpoint run {A} (p : prog A) (s : Store) : result A :=
  match p with
  | Done c => {| outcome := c; final := s; trace := [] |}
  | Perform a k =>
      let r := run k (apply a s) in
      {| outcome := outcome r; final := final r;
         trace := Did a :: trace r |}
  | Await q k =>
      let r := run (k (network q)) s in
      {| outcome := outcome r; final := final r;
         trace := Sent q :: trace r |}
  end.

(** The store as it stands at each suspension point of the run, paired
    with the request then outstanding. *)
Fixpoint in_flight {A} (p : prog A) (s : Store) : list (Request * Store) :=
  match p with
  | Done _ => []
  | Perform a k => in_flight k (apply a s)
  | Await q k => (q, s) :: in_flight (k (network q)) s
  end.

End Program.

Arguments prog : clear implicits.
Arguments event : clear implicits.
Arguments result : clear implicits.
Arguments Done {Action Request Answer A} _.
Arguments Perform {Action Request Answer A} _ _.
Arguments Await {Action Request Answer A} _ _.
Arguments Did {Action Request} _.
Arguments Sent {Action Request} _.
Arguments outcome {Action Request Store A} _.
Arguments final {Action Request Store A} _.
Arguments trace {Action Request Store A} _.

(** The requests of a trace, in order. *)
Fixpoint requests {Action Request} (t : list (event Action Request))
  : list Request :=
  match t with
  | [] => []
  | Sent r :: t' => r :: requests t'
  | Did _ :: t' => requests t'
  end.

(** The actions of a trace, in order. *)
Fixpoint actions {Action Request} (t : list (event Action Request))
  : list Action :=
  match t with
  | [] => []
  | Did a :: t' => a :: actions t'
  | Sent _ :: t' => actions t'
  end.

Module Notations.
Notation "x <- p ;; q" := (bind p (fun x => q))
  (at level 61, p at next level, right associativity).
Notation "p ;; q" := (bind p (fun _ => q))
  (at level 61, right associativity).
End Notations.

End Async.

(** * The recommendation form: [frontend/src/App.js] *)

Module App.

Import JS Async Async.Notations.

(** ** Data *)

Record Recommendation : Type :=
  { chatroom_id : string; predicted_score : number }.

Record ThresholdConfig : Type :=
  { motivation : number; pressure : number; credit_level : string }.

(** The five [useState] cells of the component. *)
Record State : Type :=
  { userId : string;
    recommendations : list Recommendation;
    loading : bool;
    error : option string;
    thresholds : ThresholdConfig }.

(** The binary64 values of the literals [0.1] and [0.5]. *)
Definition number_0_1 : number := S754_finite false 7205759403792794 (-56).
Definition number_0_5 : number := S754_finite false 4503599627370496 (-53).

(** The state on mount: the arguments of the [useState] calls. *)
Definition initial : State :=
  {| userId := "";
     recommendations := [];
     loading := false;
     error := None;
     thresholds :=
       {| motivation := number_0_1;
          pressure := number_0_5;
          credit_level := "partial" |} |}.

(** [response.data] of both endpoints: [null], or a value whose
    [recommendations] field holds a list or is left out (an object without
    the field, and any body that is not an object, a string or a number,
    have no such field). *)
Module Data.
Inductive t : Type :=
| null
| object (recommendations : option (list Recommendation)).
End Data.

(** The body of the create request. *)
Module PostBody.
Record filters_t : Type := { top_k : Z }.
Record t : Type :=
  { user_id : string; filters : filters_t; thresholds : ThresholdConfig }.
End PostBody.

(** [recs || []] *)
Definition or_empty (recs : option (list Recommendation))
  : list Recommendation :=
  match recs with
  | Some l => l
  | None => []
  end.

(** ** Effects *)

Inductive action : Type :=
| preventDefault
| setLoading (b : bool)
| setError (e : option string)
| setRecommendations (l : list Recommendation)
| console_error (args : list value).

Inductive request : Type :=
| axios_get (url : string)
| axios_post (url : string) (body : PostBody.t).

Definition answer : Type := settled Data.t.
Definition network : Type := request -> answer.

Definition apply (a : action) (st : State) : State :=
  match a with
  | setLoading b =>
      {| userId := userId st; recommendations := recommendations st;
         loading := b; error := error st; thresholds := thresholds st |}
  | setError e =>
      {| userId := userId st; recommendations := recommendations st;
         loading := loading st; error := e; thresholds := thresholds st |}
  | setRecommendations l =>
      {| userId := userId st; recommendations := l;
         loading := loading st; error := error st;
         thresholds := thresholds st |}
  | preventDefault | console_error _ => st
  end.

Definition handler : Type := prog action request answer unit.

(** [await r]: the response of a fulfilled promise; a rejection is thrown. *)
Definition await (r : request)
  : prog action request answer (response Data.t) :=
  Await r (fun a =>
    match a with
    | Fulfilled resp => ret resp
    | Rejected err => throw err
    end).

(** [data.recommendations]: reading a property of [null] throws. *)
Definition recommendations_of (d : Data.t)
  : prog action request answer (option (list Recommendation)) :=
  match d with
  | Data.null => throw (cannot_read "recommendations")
  | Data.object recs => ret recs
  end.

(** ** [handleSubmit]

    The closure made by the render of state [st]: [userId] and [thresholds]
    are the values of that render. *)
Definition handleSubmit (st : State) : handler :=
  perform preventDefault ;;
  perform (setLoading true) ;;
  perform (setError None) ;;
  try_catch_finally
    ( try_catch
        ( response <- await
            (axios_get ("http://localhost:8000/recommendations/" ++ userId st)) ;;
          recs <- recommendations_of (data response) ;;
          perform (setRecommendations (or_empty recs)) ;;
          return_ )
        (fun err =>
           if match response_status err with
              | Some s => negb (s =? 404)
              | None => true
              end
           then throw err
           else ret tt) ;;
      response <- await
        (axios_post "http://localhost:8000/recommendations"
           {| PostBody.user_id := userId st;
              PostBody.filters := {| PostBody.top_k := 5 |};
              PostBody.thresholds := thresholds st |}) ;;
      recs <- recommendations_of (data response) ;;
      perform (setRecommendations (or_empty recs)) )
    (fun err =>
       let detail := get (response_data err) "detail" in
       errorMessage <-
         (if ToBoolean detail
          then text <- interpolate detail ;; ret ("Error: " ++ text)
          else ret "Failed to get recommendations") ;;
       perform (setError (Some errorMessage)) ;;
       perform (console_error
                  [ VString "Request failed:";
                    or_else (response_data err) (VString (message err)) ]) )
    ( perform (setLoading false) ).

(** One submission from the rendered state [st]. *)
Definition submit (net : network) (st : State)
  : result action request State unit :=
  run net apply (handleSubmit st) st.

(** ** Render *)

Definition className (c : string) : string * prop := ("className", PString c).

Definition threshold_input (label : string) (v : number) (setter : string)
  : element :=
  Elem "div" None [className "form-group"]
    [ Elem "label" None [] [Text label];
      Elem "input" None
        [ ("type", PString "number"); ("step", PString "0.1");
          ("min", PString "0"); ("max", PString "1");
          ("value", PNumber v); ("onChange", PHandler setter) ] [] ].

Definition submit_button (st : State) : element :=
  Elem "button" None
    [ ("type", PString "submit"); ("disabled", PBool (loading st)) ]
    [ Text (if loading st then "Loading..." else "Get Recommendations") ].

Definition render_form (st : State) : element :=
  Elem "form" None [("onSubmit", PHandler "handleSubmit")]
    [ Elem "div" None [className "form-group"]
        [ Elem "input" None
            [ ("type", PString "text"); ("value", PString (userId st));
              ("onChange", PHandler "setUserId");
              ("placeholder", PString "Enter User ID");
              ("required", PBool true) ] [] ];
      Elem "div" None [className "thresholds"]
        [ Elem "h3" None [] [Text "Thresholds"];
          threshold_input "Motivation:" (motivation (thresholds st))
            "setThresholds";
          threshold_input "Pressure:" (pressure (thresholds st))
            "setThresholds";
          Elem "div" None [className "form-group"]
            [ Elem "label" None [] [Text "Credit Level:"];
              Elem "select" None
                [ ("value", PString (credit_level (thresholds st)));
                  ("onChange", PHandler "setThresholds") ]
                [ Elem "option" None [("value", PString "none")]
                    [Text "None"];
                  Elem "option" None [("value", PString "partial")]
                    [Text "Partial"];
                  Elem "option" None [("value", PString "full")]
                    [Text "Full"] ] ] ];
      submit_button st ].

(** [{error && <div className="error">{error}</div>}] *)
Definition render_error (error : option string) : list element :=
  match error with
  | Some e =>
      if (e =? "")%string then []
      else [ Elem "div" None [className "error"] [Text e] ]
  | None => []
  end.

Definition render_card (rec : Recommendation) : element :=
  Elem "div" (Some (chatroom_id rec)) [className "card"]
    [ Elem "h3" None [] [Text "Chatroom "; Text (chatroom_id rec)];
      Elem "div" None [className "score"]
        [Text "Score: "; Text (toFixed 2 (predicted_score rec))] ].

(** [{recommendations.length > 0 && (...)}] *)
Definition render_recommendations (recs : list Recommendation)
  : list element :=
  if (0 <? List.length recs)%nat
  then [ Elem "div" None [className "recommendations"]
           [ Elem "h2" None [] [Text "Recommended Chatrooms"];
             Elem "div" None [className "cards"] (map render_card recs) ] ]
  else [].

Definition render (st : State) : element :=
  Elem "div" None [className "App"]
    [ Elem "h1" None [] [Text "Grok MeetU"];
      Elem "div" None [className "container"]
        ( [render_form st]
          ++ render_error (error st)
          ++ render_recommendations (recommendations st) ) ].

End App.

(** * The hello-world page: [frontend/src/pages/HelloWorld/index.js] *)

Module HW.

Import JS Async Async.Notations.

(** The component keeps no state; its one binding is [const xx = ""]. *)
Record Bindings : Type := { xx : value }.

Definition initial : Bindings := {| xx := VString "" |}.

Inductive action : Type :=
| preventDefault
| console_error (args : list value).

Inductive request : Type :=
| axios_get (url : string).

Definition answer : Type := settled value.
Definition network : Type := request -> answer.

Definition apply (a : action) (b : Bindings) : Bindings := b.

Definition handler : Type := prog action request answer unit.

Definition await (r : request) : prog action request answer (response value) :=
  Await r (fun a =>
    match a with
    | Fulfilled resp => ret resp
    | Rejected err => throw err
    end).

(** [name = v] where [name] is a [const] binding: the right-hand side has
    been evaluated, the assignment throws and the binding keeps its value. *)
Definition assign_const (name : string) (v : value) : handler :=
  throw cannot_assign.

Definition handleSubmit : handler :=
  perform preventDefault ;;
  try_catch
    ( response <- await (axios_get "http://localhost:8000/helloworld") ;;
      assign_const "xx" (data response) )
    (fun err =>
       let detail := get (response_data err) "detail" in
       errorMessage <-
         (if ToBoolean detail
          then text <- interpolate detail ;; ret ("Error: " ++ text)
          else ret "Failed to get recommendations") ;;
       perform (console_error
                  [ VString "Request failed:";
                    or_else (response_data err) (VString (message err)) ]) ).

Definition submit (net : network) (b : Bindings)
  : result action request Bindings unit :=
  run net apply handleSubmit b.

Definition render (b : Bindings) : element :=
  Elem "div" None [("className", PString "HW")]
    [ Elem "h1" None [] [Text "Hello World!!!"] ].

End HW.

(** * Vocabulary of the statements *)

Import JS Async.

Module Submission.

Import App.

(** The two requests a submission from state [st] can send. *)
Definition read_request (st : State) : request :=
  axios_get ("http://localhost:8000/recommendations/" ++ userId st).

Definition create_request (st : State) : request :=
  axios_post "http://localhost:8000/recommendations"
    {| PostBody.user_id := userId st;
       PostBody.filters := {| PostBody.top_k := 5 |};
       PostBody.thresholds := thresholds st |}.

Definition is_create (r : request) : bool :=
  match r with
  | axios_post _ _ => true
  | axios_get _ => false
  end.

(** The create requests among the requests of a trace. *)
Definition creates (t : list (event action request)) : list request :=
  filter is_create (requests t).

Definition is_setRecommendations (a : action) : bool :=
  match a with
  | setRecommendations _ => true
  | _ => false
  end.

(** The calls of [setRecommendations] in a trace. *)
Definition replacements (t : list (event action request)) : list action :=
  filter is_setRecommendations (actions t).

(** [err] is what a call leaves in the [try] block: the error of its
    rejection, or the [TypeError] of reading [recommendations] off the
    [null] body of its response. *)
Definition fails_with (a : answer) (err : JS.error) : Prop :=
  a = Rejected err
  \/ (exists resp,
        a = Fulfilled resp /\ data resp = Data.null
        /\ err = cannot_read "recommendations").

(** [err] is a failure that reaches the outer [catch]: a failure of the
    read other than a rejection with status 404, or a failure of the create
    that follows such a rejection. *)
Definition fails_reading (net : network) (st : State) (err : JS.error)
  : Prop :=
  fails_with (net (read_request st)) err /\ response_status err <> Some 404.

Definition fails_creating (net : network) (st : State) (err : JS.error)
  : Prop :=
  exists err0,
    net (read_request st) = Rejected err0
    /\ response_status err0 = Some 404
    /\ fails_with (net (create_request st)) err.

Definition reaches_outer_catch (net : network) (st : State) (err : JS.error)
  : Prop :=
  fails_reading net st err \/ fails_creating net st err.

(** What is on screen. *)
Definition cards (view : element) : list element :=
  select (has_class "card") view.

Definition sections (view : element) : list element :=
  select (has_class "recommendations") view.

Definition error_boxes (view : element) : list element :=
  select (has_class "error") view.

(** [err.response?.data?.detail], then the message and the log line of the
    outer [catch] for the failure [err]. *)
Definition detail (err : JS.error) : value :=
  get (response_data err) "detail".

Definition errorMessage (err : JS.error) : option string :=
  if ToBoolean (detail err)
  then option_map (String.append "Error: ") (ToString (detail err))
  else Some "Failed to get recommendations".

Definition log_line (err : JS.error) : action :=
  console_error
    [ VString "Request failed:";
      or_else (response_data err) (VString (message err)) ].

(** What the outer [catch] does with [err]: it sets the message and logs,
    or throws from the template literal before either. *)
Definition caught (err : JS.error) : list (event action request) :=
  match errorMessage err with
  | Some msg => [Did (setError (Some msg)); Did (log_line err)]
  | None => []
  end.

Definition after_catch (err : JS.error) (s : State) : State :=
  match errorMessage err with
  | Some msg => apply (setError (Some msg)) s
  | None => s
  end.

Definition catch_outcome (err : JS.error) : completion unit :=
  match errorMessage err with
  | Some _ => Normal tt
  | None => Throw cannot_convert
  end.

End Submission.

(** * Inputs of the scenarios *)

Module Examples.

Import App.

(** The binary64 values of the literals [0.873] and [1e21]. *)
Definition number_0_873 : number := S754_finite false 7863284949388886 (-53).
Definition number_1e21 : number := S754_finite false 7629394531250000 17.

Definition c1 : Recommendation :=
  {| chatroom_id := "c1"; predicted_score := number_0_873 |}.

Definition huge : Recommendation :=
  {| chatroom_id := "c2"; predicted_score := number_1e21 |}.

(** The form after [u1] (or [u2]) has been typed in. *)
Definition u1 : State :=
  {| userId := "u1"; recommendations := []; loading := false;
     error := None; thresholds := thresholds initial |}.

Definition u2 : State :=
  {| userId := "u2"; recommendations := []; loading := false;
     error := None; thresholds := thresholds initial |}.

(** [u1] with the card of an earlier submission on screen. *)
Definition u1_with_card : State := apply (setRecommendations [c1]) u1.

(** [u1] while a submission is in flight. *)
Definition u1_loading : State := apply (setLoading true) u1.

Definition ok (recs : option (list Recommendation)) : answer :=
  Fulfilled {| status := 200; data := Data.object recs |}.

(** A 200 whose body is [null]. *)
Definition ok_null : answer :=
  Fulfilled {| status := 200; data := Data.null |}.

Definition not_found : JS.error :=
  AxiosError "Request failed with status code 404"
    (Some {| status := 404;
             data := VObject [("detail", VString "Not Found")] |}).

Definition server_error (body : value) : JS.error :=
  AxiosError "Request failed with status code 500"
    (Some {| status := 500; data := body |}).

(** Read misses, create answers with one recommendation. *)
Definition miss_then_created : network :=
  fun r =>
    match r with
    | axios_get _ => Rejected not_found
    | axios_post _ _ => ok (Some [c1])
    end.

(** Read misses, create is refused. *)
Definition miss_then_refused : network :=
  fun r =>
    match r with
    | axios_get _ => Rejected not_found
    | axios_post _ _ =>
        Rejected (server_error (VObject [("detail", VString "no model")]))
    end.

(** Read finds an empty list. *)
Definition found_empty : network := fun _ => ok (Some []).

(** Every call fails with a 500 and the given body. *)
Definition failing (body : value) : network :=
  fun _ => Rejected (server_error body).

(** An error body whose [detail] is the empty string. *)
Definition empty_detail : value := VObject [("detail", VString "")].

(** An error body with a message in [detail]. *)
Definition overloaded : value := VObject [("detail", VString "overloaded")].

(** An error body whose [detail] is an object with a field [toString]. *)
Definition unconvertible : value :=
  VObject [("detail", VObject [("toString", VString "x")])].

(** Read finds a [null] body. *)
Definition found_null : network := fun _ => ok_null.

(** Read misses, create answers with a [null] body. *)
Definition miss_then_null : network :=
  fun r =>
    match r with
    | axios_get _ => Rejected not_found
    | axios_post _ _ => ok_null
    end.

End Examples.

(** Reading a string back as a number with two decimal places: an optional
    minus sign, at least one digit, a point, two digits.  The result is the
    sign and the number of hundredths. *)
Definition hundredths_of (body : string) : option Z :=
  let k := String.length body in
  if (k <? 4)%nat then None
  else
    match String.get (k - 3) body with
    | Some c =>
        if Ascii.eqb c "."
        then option_map (fun d => Z.of_N (N.of_uint d))
               (NilEmpty.uint_of_string
                  (take (k - 3) body ++ drop (k - 2) body))
        else None
    | None => None
    end.

Definition two_decimal_places (s : string) : option (bool * Z) :=
  match s with
  | String c s' =>
      if Ascii.eqb c "-"
      then option_map (pair true) (hundredths_of s')
      else option_map (pair false) (hundredths_of s)
  | EmptyString => None
  end.

(** The numbers [toFixed] writes with digits after the point: zero, and the
    finite numbers of magnitude below [10^21]. *)
Definition below_1e21 (x : number) : bool :=
  match x with
  | S754_zero _ => true
  | S754_finite _ m e => Qltb (magnitude m e) (pow10 21)
  | S754_nan | S754_infinity _ => false
  end.

(** * The form inputs

    [parseFloat] (ECMA-262 19.2.4), the [onChange] handlers of the four
    inputs, what the browser does with the [required] and [disabled]
    attributes, and the sequences of events a user can produce. *)

Module Parse.

(** A string is modelled by its characters below U+0100, one [ascii] each.
    Among them the white space and line terminators of ECMA-262 are TAB, LF,
    VT, FF, CR, SP and NBSP. *)
Definition is_white_space (c : ascii) : bool :=
  let n := nat_of_ascii c in
  ((9 <=? n) && (n <=? 13) || (n =? 32) || (n =? 160))%nat.

Definition is_digit (c : ascii) : bool :=
  let n := nat_of_ascii c in ((48 <=? n) && (n <=? 57))%nat.

Fixpoint trim_start (s : string) : string :=
  match s with
  | String c s' => if is_white_space c then trim_start s' else s
  | EmptyString => EmptyString
  end.

(** The longest prefix of digits, and what follows it. *)
Fixpoint span_digits (s : string) : string * string :=
  match s with
  | String c s' =>
      if is_digit c
      then let (d, r) := span_digits s' in (String c d, r)
      else (EmptyString, s)
  | EmptyString => (EmptyString, EmptyString)
  end.

Definition value_of_digits (d : string) : Z :=
  match NilEmpty.uint_of_string d with
  | Some u => Z.of_N (N.of_uint u)
  | None => 0
  end.

(** An optional sign: whether it is a minus, and what follows it. *)
Definition sign_of (s : string) : bool * string :=
  match s with
  | String c s' =>
      if Ascii.eqb c "-" then (true, s')
      else if Ascii.eqb c "+" then (false, s')
      else (false, s)
  | EmptyString => (false, s)
  end.

(** ExponentPart: [e] or [E], an optional sign and at least one digit.  An
    exponent that is absent or incomplete is not part of the literal, which
    then has exponent zero. *)
Definition exponent_of (s : string) : Z :=
  match s with
  | String c s' =>
      if Ascii.eqb c "e" || Ascii.eqb c "E"
      then let (neg, s'') := sign_of s' in
           let (d, _) := span_digits s'' in
           if neg then - value_of_digits d else value_of_digits d
      else 0
  | EmptyString => 0
  end.

(** The longest prefix that is a StrUnsignedDecimalLiteral: [Infinity], or
    digits with an optional fraction, or a fraction alone, each with an
    optional exponent.  A decimal literal is read as
    [significand * 10^exponent]. *)
Inductive literal : Type :=
| LInfinity
| LDecimal (significand : Z) (exponent : Z).

Definition unsigned_literal (s : string) : option literal :=
  if prefix "Infinity" s then Some LInfinity
  else
    let (i, r) := span_digits s in
    match r with
    | String c r' =>
        if Ascii.eqb c "."
        then let (f, r'') := span_digits r' in
             if (i =? "")%string && (f =? "")%string then None
             else Some (LDecimal (value_of_digits (i ++ f))
                          (exponent_of r'' - Z.of_nat (String.length f)))
        else if (i =? "")%string then None
             else Some (LDecimal (value_of_digits i) (exponent_of r))
    | EmptyString =>
        if (i =? "")%string then None
        else Some (LDecimal (value_of_digits i) 0)
    end.

(** [floor (log2 q)] for a positive rational. *)
Definition binade (q : Q) : Z :=
  let l := Z.log2 (Qnum q) - Z.log2 (Zpos (Qden q)) in
  if JS.Qltb q (JS.pow2 l) then l - 1 else l.

(** The binary64 value nearest to a non-negative rational, ties to even:
    zero on underflow, infinity on overflow. *)
Definition round_binary64 (neg : bool) (q : Q) : JS.number :=
  if JS.Qleb q 0 then S754_zero neg
  else
    let e := Z.max (binade q - 52) (-1074) in
    let m := JS.nearest_integer (q / JS.pow2 e) in
    let '(m, e) := if m =? 2 ^ 53 then (2 ^ 52, e + 1) else (m, e) in
    if m =? 0 then S754_zero neg
    else if 971 <? e then S754_infinity neg
    else S754_finite neg (Z.to_pos m) e.

(** [parseFloat]: leading white space is dropped, the longest prefix that is
    a signed decimal literal is read and rounded, and anything after it is
    ignored; [NaN] when there is no such prefix. *)
Definition parseFloat (s : string) : JS.number :=
  let (neg, u) := sign_of (trim_start s) in
  match unsigned_literal u with
  | None => S754_nan
  | Some LInfinity => S754_infinity neg
  | Some (LDecimal d e) => round_binary64 neg (inject_Z d * JS.pow10 e)
  end.

(** Whether a text has a digit at all, and whether it has nothing else. *)
Definition has_digit (s : string) : bool :=
  existsb is_digit (list_ascii_of_string s).

Definition all_digits (s : string) : bool :=
  forallb is_digit (list_ascii_of_string s).

(** [Number.isFinite]: neither [NaN] nor an infinity. *)
Definition is_number (x : JS.number) : bool :=
  match x with
  | S754_zero _ | S754_finite _ _ _ => true
  | S754_nan | S754_infinity _ => false
  end.

End Parse.

Module Inputs.

Import App.

(** The setters of the two cells that only the inputs write. *)
Definition setUserId (v : string) (s : State) : State :=
  {| userId := v; recommendations := recommendations s;
     loading := loading s; error := error s; thresholds := thresholds s |}.

Definition setThresholds (t : ThresholdConfig) (s : State) : State :=
  {| userId := userId s; recommendations := recommendations s;
     loading := loading s; error := error s; thresholds := t |}.

(** The options of the credit level [select]. *)
Inductive credit_option : Type := none | partial | full.

Definition option_value (o : credit_option) : string :=
  match o with
  | none => "none"
  | partial => "partial"
  | full => "full"
  end.

(** A change event: the input it comes from and its [e.target.value]. *)
Inductive input : Type :=
| TypeUserId (value : string)
| TypeMotivation (value : string)
| TypePressure (value : string)
| SelectCreditLevel (o : credit_option).

(** The [onChange] handlers made by the render of state [st]: the three
    threshold handlers spread the [thresholds] of that render and replace
    one field. *)
Definition onChange (st : State) (i : input) : State -> State :=
  match i with
  | TypeUserId value => setUserId value
  | TypeMotivation value =>
      setThresholds
        {| motivation := Parse.parseFloat value;
           pressure := pressure (thresholds st);
           credit_level := credit_level (thresholds st) |}
  | TypePressure value =>
      setThresholds
        {| motivation := motivation (thresholds st);
           pressure := Parse.parseFloat value;
           credit_level := credit_level (thresholds st) |}
  | SelectCreditLevel o =>
      setThresholds
        {| motivation := motivation (thresholds st);
           pressure := pressure (thresholds st);
           credit_level := option_value o |}
  end.

(** A change event on the page as rendered from the current state. *)
Definition edit (s : State) (i : input) : State := onChange s i s.

(** The part of the state a change event writes. *)
Inductive field : Type :=
| FUserId
| FMotivation
| FPressure
| FCreditLevel.

Definition target (i : input) : field :=
  match i with
  | TypeUserId _ => FUserId
  | TypeMotivation _ => FMotivation
  | TypePressure _ => FPressure
  | SelectCreditLevel _ => FCreditLevel
  end.

Definition on_thresholds (i : input) : bool :=
  match i with
  | TypeUserId _ => false
  | _ => true
  end.

(** ** What the browser refuses

    A submit button that is disabled submits nothing, and a form with a
    [required] text input whose value is empty fails validation: in both
    cases [onSubmit] is not called.  [blocked] holds of a page when one of
    these two reasons applies.  The browser has more reasons to refuse,
    which are not modelled: the [min], [max] and [step] of the two number
    inputs.  So a page that is [blocked] is refused, and nothing is said of
    one that is not. *)
Definition is_input (e : JS.element) : bool :=
  match e with
  | JS.Elem tag _ _ _ => (tag =? "input")%string
  | JS.Text _ => false
  end.

Definition required_but_empty (e : JS.element) : bool :=
  match e with
  | JS.Elem _ _ props _ =>
      match JS.prop_of "required" props, JS.prop_of "value" props with
      | Some (JS.PBool true), Some (JS.PString v) => (v =? "")%string
      | _, _ => false
      end
  | JS.Text _ => false
  end.

Definition blocked (view : JS.element) : bool :=
  negb (JS.offers_submit view)
  || existsb required_but_empty (JS.select is_input view).

(** The values of the options a [select] of the page offers. *)
Definition is_option (e : JS.element) : bool :=
  match e with
  | JS.Elem tag _ _ _ => (tag =? "option")%string
  | JS.Text _ => false
  end.

Definition value_of (e : JS.element) : list string :=
  match e with
  | JS.Elem _ _ props _ =>
      match JS.prop_of "value" props with
      | Some (JS.PString v) => [v]
      | _ => []
      end
  | JS.Text _ => []
  end.

Definition option_values (view : JS.element) : list string :=
  flat_map value_of (JS.select is_option view).

(** ** Sessions

    What a user does: change an input, or submit the form, to which the
    network then answers.  A submission that the browser refuses leaves the
    state as it is. *)
Inductive ui_event : Type :=
| Edit (i : input)
| Submit (net : network).

Definition after (st : State) (ev : ui_event) : State :=
  match ev with
  | Edit i => edit st i
  | Submit net =>
      if blocked (render st) then st
      else Async.final (submit net st)
  end.

Definition session (evs : list ui_event) : State :=
  fold_left after evs initial.

(** What holds of the state whenever no submission is running. *)
Definition settled_state (st : State) : Prop :=
  loading st = false
  /\ error st <> Some ""
  /\ In (credit_level (thresholds st)) (option_values (render st)).

(** ** Changes during a submission

    The inputs stay enabled while a request is outstanding.
    [run_with_edits] runs a handler like [Async.run], and applies at each
    suspension point the change events that arrive while the request is
    outstanding, each on the page as rendered then. *)
Fixpoint run_with_edits {A} (net : network) (edits : request -> list input)
  (p : Async.prog action request answer A) (s : State)
  : Async.result action request State A :=
  match p with
  | Async.Done c =>
      {| Async.outcome := c; Async.final := s; Async.trace := [] |}
  | Async.Perform a k =>
      let r := run_with_edits net edits k (apply a s) in
      {| Async.outcome := Async.outcome r; Async.final := Async.final r;
         Async.trace := Async.Did a :: Async.trace r |}
  | Async.Await q k =>
      let r := run_with_edits net edits (k (net q))
                 (fold_left edit (edits q) s) in
      {| Async.outcome := Async.outcome r; Async.final := Async.final r;
         Async.trace := Async.Sent q :: Async.trace r |}
  end.

End Inputs.

(** * More inputs of scenarios *)

Module Scenarios.

Import App Examples.

(** A JSON object, as opposed to any other body. *)
Definition is_object (v : value) : bool :=
  match v with
  | VObject _ => true
  | _ => false
  end.

(** A JSON object without an own property [toString]. *)
Definition plain_object (v : value) : bool :=
  match v with
  | VObject fields => negb (has_key "toString" fields)
  | _ => false
  end.

(** The body of a 422 of the API: [detail] is a list of objects. *)
Definition validation_errors : value :=
  VObject
    [ ("detail",
       VArray
         [ VObject [("loc", VArray [VString "body"; VString "user_id"]);
                    ("msg", VString "field required")];
           VObject [("loc", VArray [VString "body"; VString "thresholds"]);
                    ("msg", VString "value is not a valid dict")] ]) ].

(** The body a proxy answers with. *)
Definition bad_gateway : value := VString "<html>502 Bad Gateway</html>".

(** The binary64 values of [-0.001] and [5]. *)
Definition number_minus_0_001 : number :=
  S754_finite true 4611686018427388 (-62).
Definition number_5 : number := S754_finite false 5629499534213120 (-50).

Definition slightly_negative : Recommendation :=
  {| chatroom_id := "c3"; predicted_score := number_minus_0_001 |}.

(** Two recommendations for the same chatroom. *)
Definition twice : State := apply (setRecommendations [c1; c1]) u1.

End Scenarios.

(** * The submit handler *)

Section Handler.

Import App Submission Async.Notations.

Variable net : network.
Variable st : State.

#[local] Arguments String.append : simpl never.

Let after_start : State := apply (setError None) (apply (setLoading true) st).

(** The read succeeds: the list is replaced and the handler returns through
    [finally]. *)
Lemma submit_read_fulfilled resp recs :
  net (read_request st) = Fulfilled resp ->
  data resp = Data.object recs ->
  submit net st =
    {| outcome := Return;
       final :=
         apply (setLoading false)
           (apply (setRecommendations (or_empty recs)) after_start);
       trace :=
         [ Did preventDefault; Did (setLoading true); Did (setError None);
           Sent (read_request st);
           Did (setRecommendations (or_empty recs));
           Did (setLoading false) ] |}.
Proof.
  intros Hget Hdata. unfold submit, handleSubmit, read_request in *.
  cbn. rewrite Hget. cbn. rewrite Hdata. reflexivity.
Qed.

(** The outer [catch], followed by [finally], from the state [s]. *)
Lemma outer_catch_runs (p : handler) (err : JS.error) (s : State) :
  p = throw err ->
  run net apply
    (try_catch_finally p
       (fun err =>
          let detail := get (response_data err) "detail" in
          errorMessage <-
            (if ToBoolean detail
             then text <- interpolate detail ;; ret ("Error: " ++ text)
             else ret "Failed to get recommendations") ;;
          perform (setError (Some errorMessage)) ;;
          perform (console_error
                     [ VString "Request failed:";
                       or_else (response_data err) (VString (message err)) ]))
       (perform (setLoading false))) s
  = {| outcome := catch_outcome err;
       final := apply (setLoading false) (after_catch err s);
       trace := (caught err ++ [Did (setLoading false)])%list |}.
Proof.
  intros ->. unfold catch_outcome, after_catch, caught, errorMessage, detail.
  unfold try_catch_finally, interpolate. cbn.
  destruct (ToBoolean (get (response_data err) "detail")); [|reflexivity].
  destruct (ToString (get (response_data err) "detail")); reflexivity.
Qed.

(** The read fails, with anything but a rejection of status 404: straight
    to the outer [catch]. *)
Lemma submit_fails_reading err :
  fails_reading net st err ->
  submit net st =
    {| outcome := catch_outcome err;
       final := apply (setLoading false) (after_catch err after_start);
       trace :=
         ([ Did preventDefault; Did (setLoading true); Did (setError None);
            Sent (read_request st) ]
          ++ caught err ++ [Did (setLoading false)])%list |}.
Proof.
  intros [Hfail Hstatus].
  pose proof (outer_catch_runs (throw err) err after_start eq_refl) as Hc.
  unfold catch_outcome, after_catch, caught, errorMessage, detail in *.
  unfold submit, handleSubmit, read_request in *.
  unfold try_catch_finally, interpolate in *. cbn in Hc |- *.
  destruct Hfail as [Hget | (resp & Hget & Hdata & ->)]; rewrite Hget; cbn.
  - destruct (response_status err) as [s|] eqn:Hs.
    + destruct (Z.eqb_spec s 404) as [->|Hne]; [congruence|]. cbn.
      rewrite Hc. reflexivity.
    + cbn. rewrite Hc. reflexivity.
  - rewrite Hdata. reflexivity.
Qed.

(** The read is rejected with status 404 and the create succeeds. *)
Lemma submit_create_fulfilled err resp recs :
  net (read_request st) = Rejected err ->
  response_status err = Some 404 ->
  net (create_request st) = Fulfilled resp ->
  data resp = Data.object recs ->
  submit net st =
    {| outcome := Normal tt;
       final :=
         apply (setLoading false)
           (apply (setRecommendations (or_empty recs)) after_start);
       trace :=
         [ Did preventDefault; Did (setLoading true); Did (setError None);
           Sent (read_request st);
           Sent (create_request st);
           Did (setRecommendations (or_empty recs));
           Did (setLoading false) ] |}.
Proof.
  intros Hget Hstatus Hpost Hdata.
  unfold submit, handleSubmit, read_request, create_request in *.
  cbn. rewrite Hget. cbn. rewrite Hstatus. cbn. rewrite Hpost. cbn.
  rewrite Hdata. reflexivity.
Qed.

(** The read is rejected with status 404 and the create fails. *)
Lemma submit_fails_creating err :
  fails_creating net st err ->
  submit net st =
    {| outcome := catch_outcome err;
       final := apply (setLoading false) (after_catch err after_start);
       trace :=
         ([ Did preventDefault; Did (setLoading true); Did (setError None);
            Sent (read_request st); Sent (create_request st) ]
          ++ caught err ++ [Did (setLoading false)])%list |}.
Proof.
  intros (err0 & Hget & Hstatus & Hfail).
  pose proof (outer_catch_runs (throw err) err after_start eq_refl) as Hc.
  unfold catch_outcome, after_catch, caught, errorMessage, detail in *.
  unfold submit, handleSubmit, read_request, create_request in *.
  unfold try_catch_finally, interpolate in *. cbn in Hc |- *.
  rewrite Hget. cbn. rewrite Hstatus. cbn.
  destruct Hfail as [Hpost | (resp & Hpost & Hdata & ->)]; rewrite Hpost; cbn.
  - rewrite Hc. reflexivity.
  - rewrite Hdata. reflexivity.
Qed.

(** The four ways a submission can go. *)
Lemma submit_cases :
  (exists resp recs,
     net (read_request st) = Fulfilled resp /\ data resp = Data.object recs)
  \/ (exists err, fails_reading net st err)
  \/ (exists err resp recs,
        net (read_request st) = Rejected err
        /\ response_status err = Some 404
        /\ net (create_request st) = Fulfilled resp
        /\ data resp = Data.object recs)
  \/ (exists err, fails_creating net st err).
Proof.
  destruct (net (read_request st)) as [resp|err] eqn:Hget.
  - destruct (data resp) as [|recs] eqn:Hdata; [|eauto].
    right. left. exists (cannot_read "recommendations"). split.
    + right. eauto.
    + discriminate.
  - right.
    destruct (response_status err) as [s|] eqn:Hs.
    + destruct (Z.eq_dec s 404) as [->|Hne].
      * right.
        destruct (net (create_request st)) as [resp|err'] eqn:Hpost.
        -- destruct (data resp) as [|recs] eqn:Hdata.
           ++ right. exists (cannot_read "recommendations"), err.
              repeat split; try assumption. right. eauto.
           ++ left. eauto 10.
        -- right. exists err', err. repeat split; try assumption. now left.
      * left. exists err. split; [now left|congruence].
    + left. exists err. split; [now left|congruence].
Qed.

End Handler.

(** * Properties of a submission *)

Section Claims.

Import App Submission.

#[local] Arguments String.append : simpl never.

(** The courses of a submission, each with the result it gives; in the two
    that fail, whether the outer [catch] gets to its message. *)
Ltac courses net st :=
  let resp := fresh "resp" in
  let recs := fresh "recs" in
  let err := fresh "err" in
  let Hget := fresh "Hget" in
  let Hdata := fresh "Hdata" in
  let Hs := fresh "Hs" in
  let Hpost := fresh "Hpost" in
  let Hfail := fresh "Hfail" in
  let msg := fresh "msg" in
  let Hmsg := fresh "Hmsg" in
  destruct (submit_cases net st)
    as [(resp & recs & Hget & Hdata)
       | [(err & Hfail)
         | [(err & resp & recs & Hget & Hs & Hpost & Hdata)
           | (err & Hfail)]]];
  [ rewrite (submit_read_fulfilled net st _ _ Hget Hdata)
  | rewrite (submit_fails_reading net st _ Hfail);
    unfold catch_outcome, after_catch, caught;
    destruct (errorMessage err) as [msg|] eqn:Hmsg
  | rewrite (submit_create_fulfilled net st _ _ _ Hget Hs Hpost Hdata)
  | rewrite (submit_fails_creating net st _ Hfail);
    unfold catch_outcome, after_catch, caught;
    destruct (errorMessage err) as [msg|] eqn:Hmsg ].

(** The message of a [TypeError] is the fallback: it has no response. *)
Lemma errorMessage_cannot_read property :
  errorMessage (cannot_read property) = Some "Failed to get recommendations".
Proof. reflexivity. Qed.

(** When the read is rejected with status 404, the create request is sent
    exactly once, to the create endpoint, with the body
    [{ user_id: userId, filters: { top_k: 5 }, thresholds }] built from the
    state of the submission; when the create is fulfilled with a body other
    than [null] the recommendations are replaced by the list of that body,
    or by the empty list when it has no such field. *)
Lemma not_found_creates_once (net : network) (st : State) (err : JS.error) :
  net (read_request st) = Rejected err ->
  response_status err = Some 404 ->
  let r := submit net st in
  creates (trace r) =
    [ axios_post "http://localhost:8000/recommendations"
        {| PostBody.user_id := userId st;
           PostBody.filters := {| PostBody.top_k := 5 |};
           PostBody.thresholds := thresholds st |} ]
  /\ forall resp recs,
       net (create_request st) = Fulfilled resp ->
       data resp = Data.object recs ->
       recommendations (final r) =
         match recs with
         | Some l => l
         | None => []
         end.
Proof.
  intros Hread H404 r. subst r. courses net st; try congruence.
  - destruct Hfail as [[Hf|(r0 & Hf & _)] Hne]; congruence.
  - destruct Hfail as [[Hf|(r0 & Hf & _)] Hne]; congruence.
  - split; [reflexivity|]. intros resp' recs' Heq Hd. cbn.
    rewrite Hpost in Heq. injection Heq as <-.
    assert (recs' = recs) as -> by congruence. reflexivity.
  - split; [reflexivity|]. intros resp' recs' Heq Hd. exfalso.
    destruct Hfail as (e0 & _ & _ & [Hf|(r0 & Hf & Hn & _)]); congruence.
  - split; [reflexivity|]. intros resp' recs' Heq Hd. exfalso.
    destruct Hfail as (e0 & _ & _ & [Hf|(r0 & Hf & Hn & _)]); congruence.
Qed.

(** C1, where the code departs from it.  When the read is rejected with
    status 404 and the create is fulfilled with the body [null], reading
    [response.data.recommendations] at line 47 throws.  The create request
    has been sent once, but the recommendations are not replaced by the
    empty list: they stay as they were, and the error is set to the fallback
    message. *)
Theorem create_null_body_not_replaced (net : network) (st : State)
  (err : JS.error) (resp : response Data.t) :
  net (read_request st) = Rejected err ->
  response_status err = Some 404 ->
  net (create_request st) = Fulfilled resp ->
  data resp = Data.null ->
  let r := submit net st in
  creates (trace r) = [create_request st]
  /\ replacements (trace r) = []
  /\ recommendations (final r) = recommendations st
  /\ error (final r) = Some "Failed to get recommendations".
Proof.
  intros Hget Hstatus Hpost Hdata r. subst r.
  assert (Hfail : fails_creating net st (cannot_read "recommendations")).
  { exists err. repeat split; try assumption. right. eauto. }
  rewrite (submit_fails_creating net st _ Hfail).
  unfold after_catch, caught. rewrite errorMessage_cannot_read.
  repeat split.
Qed.

(** When the read is fulfilled with a body other than [null], no create
    request is sent, and the recommendations are replaced by the list of
    that body, or by the empty list when it has no such field. *)
Lemma found_never_creates (net : network) (st : State)
  (resp : response Data.t) (recs : option (list Recommendation)) :
  net (read_request st) = Fulfilled resp ->
  data resp = Data.object recs ->
  let r := submit net st in
  creates (trace r) = []
  /\ replacements (trace r) =
       [ setRecommendations (recommendations (final r)) ]
  /\ recommendations (final r) =
       match recs with
       | Some l => l
       | None => []
       end.
Proof.
  intros Hget Hdata r. subst r.
  rewrite (submit_read_fulfilled net st resp recs Hget Hdata).
  repeat split.
Qed.

(** C2, where the code departs from it.  When the read is fulfilled with
    the body [null], reading [response.data.recommendations] at line 27
    throws, the inner [catch] throws the error on, and the outer one sets the
    fallback message.  No create request is sent, but the recommendations
    are not replaced by the empty list: [setRecommendations] is not called
    and they stay as they were. *)
Theorem read_null_body_not_replaced (net : network) (st : State)
  (resp : response Data.t) :
  net (read_request st) = Fulfilled resp ->
  data resp = Data.null ->
  let r := submit net st in
  creates (trace r) = []
  /\ replacements (trace r) = []
  /\ recommendations (final r) = recommendations st
  /\ error (final r) = Some "Failed to get recommendations".
Proof.
  intros Hget Hdata r. subst r.
  assert (Hfail : fails_reading net st (cannot_read "recommendations")).
  { split; [right; eauto|discriminate]. }
  rewrite (submit_fails_reading net st _ Hfail).
  unfold after_catch, caught. rewrite errorMessage_cannot_read.
  repeat split.
Qed.

(** When the read is rejected with a status other than 404, or with no
    response at all, no create request is sent and the recommendations are
    those of before the submission; the error is set to a message when the
    outer [catch] gets to it, that is unless its template literal throws. *)
Lemma other_failure_keeps_list (net : network) (st : State)
  (err : JS.error) :
  net (read_request st) = Rejected err ->
  response_status err <> Some 404 ->
  let r := submit net st in
  creates (trace r) = []
  /\ recommendations (final r) = recommendations st
  /\ (errorMessage err <> None -> error (final r) <> None).
Proof.
  intros Hget Hstatus r. subst r.
  assert (Hfail : fails_reading net st err) by (split; [now left|assumption]).
  rewrite (submit_fails_reading net st _ Hfail).
  unfold after_catch, caught.
  destruct (errorMessage err); repeat split; try discriminate.
  intros H. now contradiction H.
Qed.

(** C3, where the code departs from it.  When the read is rejected with a
    status other than 404 and the [detail] of the response is truthy but
    cannot be converted to a string, the template literal at line 50 throws
    inside the outer [catch].  No create request is sent and the
    recommendations stay as they were, but [setError] is never reached: the
    error is null at the end and the handler throws. *)
Theorem unconvertible_detail_sets_no_error (net : network) (st : State)
  (err : JS.error) :
  net (read_request st) = Rejected err ->
  response_status err <> Some 404 ->
  ToBoolean (detail err) = true ->
  ToString (detail err) = None ->
  let r := submit net st in
  creates (trace r) = []
  /\ recommendations (final r) = recommendations st
  /\ error (final r) = None
  /\ outcome r = Throw cannot_convert
  /\ loading (final r) = false.
Proof.
  intros Hget Hstatus Htruthy Hconv r. subst r.
  assert (Hfail : fails_reading net st err) by (split; [now left|assumption]).
  rewrite (submit_fails_reading net st _ Hfail).
  unfold catch_outcome, after_catch, caught, errorMessage.
  rewrite Htruthy, Hconv. repeat split.
Qed.

(** C4. Every submission starts with [preventDefault], [setLoading(true)]
    and [setError(null)], in this order and before any request: while the
    read request is outstanding the state is the one of before with
    [loading] true and [error] null.  Whatever the network answers, and
    whether the handler completes or throws, [loading] is false at the
    end. *)
Theorem loading_set_then_cleared (net : network) (st : State) :
  let r := submit net st in
  (exists rest,
     trace r =
       Did preventDefault :: Did (setLoading true) :: Did (setError None)
         :: Sent (read_request st) :: rest)
  /\ (exists rest,
        in_flight net apply (handleSubmit st) st =
          ( read_request st,
            {| userId := userId st; recommendations := recommendations st;
               loading := true; error := None;
               thresholds := thresholds st |} ) :: rest)
  /\ loading (final r) = false.
Proof.
  intros r. subst r. split; [|split].
  - courses net st; cbn; eauto.
  - unfold handleSubmit. cbn. eauto.
  - courses net st; reflexivity.
Qed.

(** C9. After any submission, an error and a replaced list exclude each
    other: if the error is set at the end, [setRecommendations] was not
    called and the recommendations are those of before; if
    [setRecommendations] was called, the error is null at the end. *)
Theorem error_excludes_fresh_list (net : network) (st : State) :
  let r := submit net st in
  (error (final r) <> None ->
   replacements (trace r) = []
   /\ recommendations (final r) = recommendations st)
  /\ (replacements (trace r) <> [] -> error (final r) = None).
Proof.
  intros r. subst r. courses net st; cbn.
  - split; [intros H; now contradiction H | reflexivity].
  - split; [intros _; split; reflexivity | intros H; now contradiction H].
  - split; [intros _; split; reflexivity | reflexivity].
  - split; [intros H; now contradiction H | reflexivity].
  - split; [intros _; split; reflexivity | intros H; now contradiction H].
  - split; [intros _; split; reflexivity | reflexivity].
Qed.

(** What the outer [catch] leaves behind for the failure it caught, when it
    gets to its message. *)
Lemma outer_catch_result (net : network) (st : State) (err : JS.error)
  (msg : string) :
  reaches_outer_catch net st err ->
  errorMessage err = Some msg ->
  error (final (submit net st)) = Some msg
  /\ In (Did (log_line err)) (trace (submit net st)).
Proof.
  intros [Hfail | Hfail] Hmsg.
  - rewrite (submit_fails_reading net st _ Hfail).
    unfold after_catch, caught. rewrite Hmsg. cbn.
    split; [reflexivity|]. do 5 right. now left.
  - rewrite (submit_fails_creating net st _ Hfail).
    unfold after_catch, caught. rewrite Hmsg. cbn.
    split; [reflexivity|]. do 6 right. now left.
Qed.

(** C6, as the code has it.  For every failure that reaches the outer
    [catch], the error is set to the fallback string
    ["Failed to get recommendations"] when the [detail] field of the
    failure's response body is absent or falsy, and to ["Error: "] followed
    by that field when it is truthy and converts to a string; in both cases
    [console.error] is called with ["Request failed:"]. *)
Theorem outer_catch_message (net : network) (st : State) (err : JS.error) :
  reaches_outer_catch net st err ->
  let r := submit net st in
  (ToBoolean (detail err) = false ->
   error (final r) = Some "Failed to get recommendations"
   /\ In (Did (console_error
                 [ VString "Request failed:";
                   or_else (response_data err) (VString (message err)) ]))
         (trace r))
  /\ (forall text,
        ToBoolean (detail err) = true ->
        ToString (detail err) = Some text ->
        error (final r) = Some ("Error: " ++ text)
        /\ In (Did (console_error
                      [ VString "Request failed:";
                        or_else (response_data err)
                          (VString (message err)) ]))
              (trace r)).
Proof.
  intros Hreach r. subst r. split.
  - intros Hfalsy. apply outer_catch_result; [assumption|].
    unfold errorMessage. now rewrite Hfalsy.
  - intros text Htruthy Hconv. apply outer_catch_result; [assumption|].
    unfold errorMessage. now rewrite Htruthy, Hconv.
Qed.

End Claims.

Section Witnesses.

Import App Submission Examples.

Lemma create_null_body_not_replaced_witness :
  miss_then_null (read_request u1_with_card) = Rejected not_found
  /\ response_status not_found = Some 404
  /\ miss_then_null (create_request u1_with_card) = ok_null
  /\ creates (trace (submit miss_then_null u1_with_card))
     = [create_request u1_with_card]
  /\ replacements (trace (submit miss_then_null u1_with_card)) = []
  /\ recommendations (final (submit miss_then_null u1_with_card)) = [c1]
  /\ error (final (submit miss_then_null u1_with_card))
     = Some "Failed to get recommendations".
Proof.
  split; [reflexivity|]. split; [reflexivity|]. split; [reflexivity|].
  exact (create_null_body_not_replaced miss_then_null u1_with_card not_found
           {| status := 200; data := Data.null |}
           eq_refl eq_refl eq_refl eq_refl).
Defined.

Lemma read_null_body_not_replaced_witness :
  found_null (read_request u1_with_card) = ok_null
  /\ creates (trace (submit found_null u1_with_card)) = []
  /\ replacements (trace (submit found_null u1_with_card)) = []
  /\ recommendations (final (submit found_null u1_with_card)) = [c1]
  /\ error (final (submit found_null u1_with_card))
     = Some "Failed to get recommendations".
Proof.
  split; [reflexivity|].
  exact (read_null_body_not_replaced found_null u1_with_card
           {| status := 200; data := Data.null |} eq_refl eq_refl).
Defined.

Lemma unconvertible_detail_sets_no_error_witness :
  failing unconvertible (read_request u1)
    = Rejected (server_error unconvertible)
  /\ response_status (server_error unconvertible) <> Some 404
  /\ ToBoolean (detail (server_error unconvertible)) = true
  /\ ToString (detail (server_error unconvertible)) = None
  /\ creates (trace (submit (failing unconvertible) u1)) = []
  /\ recommendations (final (submit (failing unconvertible) u1)) = []
  /\ error (final (submit (failing unconvertible) u1)) = None
  /\ outcome (submit (failing unconvertible) u1) = Throw cannot_convert
  /\ loading (final (submit (failing unconvertible) u1)) = false.
Proof.
  assert (Hs : response_status (server_error unconvertible) <> Some 404)
    by discriminate.
  split; [reflexivity|]. split; [exact Hs|].
  split; [reflexivity|]. split; [reflexivity|].
  exact (unconvertible_detail_sets_no_error (failing unconvertible) u1
           (server_error unconvertible) eq_refl Hs eq_refl eq_refl).
Defined.

Lemma error_excludes_fresh_list_witness :
  error (final (submit (failing overloaded) u1_with_card)) <> None
  /\ recommendations (final (submit (failing overloaded) u1_with_card))
     = [c1]
  /\ replacements (trace (submit miss_then_created u1)) <> []
  /\ error (final (submit miss_then_created u1)) = None.
Proof.
  assert (He : error (final (submit (failing overloaded) u1_with_card))
               <> None) by discriminate.
  assert (Hr : replacements (trace (submit miss_then_created u1)) <> [])
    by discriminate.
  split; [exact He|].
  split.
  - exact (proj2 (proj1 (error_excludes_fresh_list (failing overloaded)
                           u1_with_card) He)).
  - split; [exact Hr|].
    exact (proj2 (error_excludes_fresh_list miss_then_created u1) Hr).
Defined.

Lemma outer_catch_message_witness :
  reaches_outer_catch miss_then_refused u1
    (server_error (VObject [("detail", VString "no model")]))
  /\ reaches_outer_catch (failing empty_detail) u1 (server_error empty_detail)
  /\ error (final (submit miss_then_refused u1)) = Some "Error: no model"
  /\ error (final (submit (failing empty_detail) u1))
     = Some "Failed to get recommendations".
Proof.
  assert (H : reaches_outer_catch miss_then_refused u1
                (server_error (VObject [("detail", VString "no model")]))).
  { right. exists not_found. repeat split. now left. }
  assert (H' : reaches_outer_catch (failing empty_detail) u1
                 (server_error empty_detail)).
  { left. split; [now left|discriminate]. }
  split; [exact H|]. split; [exact H'|]. split.
  - exact (proj1 (proj2 (outer_catch_message miss_then_refused u1 _ H)
                    "no model" eq_refl eq_refl)).
  - exact (proj1 (proj1 (outer_catch_message (failing empty_detail) u1 _ H')
                    eq_refl)).
Defined.

(** C6 as stated fails where [detail] is present and falsy: with the body
    [{ detail: "" }] the field is there, and the error is the fallback
    string, not ["Error: "] followed by the field. *)
Lemma empty_detail_gets_fallback :
  reaches_outer_catch (failing empty_detail) u1 (server_error empty_detail)
  /\ response_data (server_error empty_detail)
     = VObject [("detail", VString "")]
  /\ ToString (VString "") = Some ""
  /\ error (final (submit (failing empty_detail) u1))
     = Some "Failed to get recommendations"
  /\ error (final (submit (failing empty_detail) u1))
     <> Some ("Error: " ++ "").
Proof.
  split.
  - left. split; [now left | discriminate].
  - split; [reflexivity|]. split; [reflexivity|].
    split; [reflexivity | discriminate].
Qed.

End Witnesses.

(** * What is on screen *)

Section Screen.

Import App Submission.

Lemma select_Elem p tag key props children :
  select p (Elem tag key props children) =
    ((if p (Elem tag key props children)
      then [Elem tag key props children] else [])
     ++ flat_map (select p) children)%list.
Proof.
  reflexivity.
Qed.

(** The render is the frame of the page around three parts: the form, the
    error box and the recommendations section. *)
Lemma select_render p (st : State) :
  let container :=
    Elem "div" None [className "container"]
      ( [render_form st]
        ++ render_error (error st)
        ++ render_recommendations (recommendations st) ) in
  select p (render st) =
    ((if p (render st) then [render st] else [])
     ++ select p (Elem "h1" None [] [Text "Grok MeetU"])
     ++ (if p container then [container] else [])
     ++ select p (render_form st)
     ++ flat_map (select p) (render_error (error st))
     ++ flat_map (select p) (render_recommendations (recommendations st)))%list.
Proof.
  intros container. unfold render at 1.
  rewrite select_Elem. fold container. change (Elem "div" None [className "App"] _) with (render st).
  f_equal. cbn [flat_map]. f_equal.
  rewrite app_nil_r. subst container. rewrite select_Elem. f_equal.
  cbn [List.app flat_map]. f_equal. apply flat_map_app.
Qed.

(** The cards contain no element that a selector could pick unless it picks
    cards themselves or their headings and scores. *)
Lemma select_cards_none p (recs : list Recommendation) :
  (forall rec, select p (render_card rec) = []) ->
  flat_map (select p) (map render_card recs) = [].
Proof.
  intros Hp. induction recs as [|rec recs IH]; [reflexivity|].
  cbn [map flat_map]. now rewrite Hp, IH.
Qed.

Lemma select_cards_all (recs : list Recommendation) :
  flat_map (select (has_class "card")) (map render_card recs)
  = map render_card recs.
Proof.
  induction recs as [|rec recs IH]; [reflexivity|].
  cbn [map flat_map]. now rewrite IH.
Qed.

(** The cards on screen are those of the recommendations in the state, one
    per entry and in the same order. *)
Lemma cards_render (st : State) :
  cards (render st) = map render_card (recommendations st).
Proof.
  unfold cards. rewrite select_render.
  replace (flat_map (select (has_class "card")) (render_error (error st)))
    with (@nil element)
    by (destruct (error st) as [e|]; [|reflexivity];
        unfold render_error; destruct (e =? "")%string; reflexivity).
  unfold render_recommendations.
  destruct (recommendations st) as [|rec recs]; [reflexivity|].
  change (0 <? List.length (rec :: recs))%nat with true. cbv iota.
  cbn [flat_map]. rewrite !select_Elem. cbn [flat_map].
  rewrite !select_Elem. rewrite select_cards_all.
  cbn -[render_card]. now rewrite !app_nil_r.
Qed.

(** The recommendations section is there exactly when the list is not
    empty. *)
Lemma sections_render (st : State) :
  sections (render st) = render_recommendations (recommendations st).
Proof.
  unfold sections. rewrite select_render.
  replace (flat_map (select (has_class "recommendations"))
             (render_error (error st)))
    with (@nil element)
    by (destruct (error st) as [e|]; [|reflexivity];
        unfold render_error; destruct (e =? "")%string; reflexivity).
  unfold render_recommendations.
  destruct (recommendations st) as [|rec recs]; [reflexivity|].
  change (0 <? List.length (rec :: recs))%nat with true. cbv iota.
  cbn [flat_map]. rewrite !select_Elem. cbn [flat_map].
  rewrite !select_Elem.
  rewrite select_cards_none by reflexivity.
  cbn -[render_card]. reflexivity.
Qed.

(** The error box is there exactly when the error is a non-empty string. *)
Lemma error_boxes_render (st : State) :
  error_boxes (render st) = render_error (error st).
Proof.
  unfold error_boxes. rewrite select_render.
  replace (flat_map (select (has_class "error"))
             (render_recommendations (recommendations st)))
    with (@nil element).
  - destruct (error st) as [e|]; [|reflexivity].
    unfold render_error; destruct (e =? "")%string; reflexivity.
  - unfold render_recommendations.
    destruct (recommendations st) as [|rec recs]; [reflexivity|].
    change (0 <? List.length (rec :: recs))%nat with true. cbv iota.
    cbn [flat_map]. rewrite !select_Elem. cbn [flat_map].
    rewrite !select_Elem.
    rewrite select_cards_none by reflexivity.
    cbn -[render_card]. reflexivity.
Qed.

(** The form has one submit button, disabled exactly while loading. *)
Lemma submit_buttons_render (st : State) :
  select is_submit_button (render st) = [submit_button st].
Proof.
  rewrite select_render.
  replace (flat_map (select is_submit_button) (render_error (error st)))
    with (@nil element)
    by (destruct (error st) as [e|]; [|reflexivity];
        unfold render_error; destruct (e =? "")%string; reflexivity).
  unfold render_recommendations.
  destruct (recommendations st) as [|rec recs]; [reflexivity|].
  change (0 <? List.length (rec :: recs))%nat with true. cbv iota.
  cbn [flat_map]. rewrite !select_Elem. cbn [flat_map].
  rewrite !select_Elem.
  rewrite select_cards_none by reflexivity.
  cbn -[render_card]. reflexivity.
Qed.

End Screen.

Section ScreenClaims.

Import App Submission Examples.

#[local] Arguments String.append : simpl never.

(** While a request is outstanding the state is the one of before the
    submission with [loading] set and no error; the first request
    outstanding is the read. *)
Lemma in_flight_states (net : network) (st : State) :
  let started :=
    {| userId := userId st; recommendations := recommendations st;
       loading := true; error := None; thresholds := thresholds st |} in
  (exists rest,
     in_flight net apply (handleSubmit st) st
     = (read_request st, started) :: rest)
  /\ Forall (fun qs => snd qs = started)
       (in_flight net apply (handleSubmit st) st).
Proof.
  cbv zeta. split; [unfold handleSubmit; cbn; eauto|].
  unfold handleSubmit, try_catch_finally, interpolate. cbn.
  constructor; [reflexivity|].
  assert (Hcatch : forall err s,
    in_flight net apply
      (try_finally
         (bind
            (if ToBoolean (get (response_data err) "detail")
             then bind
                    match ToString (get (response_data err) "detail") with
                    | Some s0 => ret s0
                    | None => throw cannot_convert
                    end
                    (fun text => ret ("Error: " ++ text))
             else ret "Failed to get recommendations")
            (fun errorMessage =>
               Perform (setError (Some errorMessage))
                 (Perform
                    (console_error
                       [ VString "Request failed:";
                         or_else (response_data err)
                           (VString (message err)) ]) (ret tt))))
         (Perform (setLoading false) (ret tt))) s = []).
  { intros err s.
    destruct (ToBoolean _); [|reflexivity].
    destruct (ToString _); reflexivity. }
  destruct (net _) as [resp|err]; cbn.
  - destruct (data resp); cbn; [apply Forall_nil|constructor].
  - destruct (response_status err) as [c|]; cbn.
    + destruct (c =? 404); cbn.
      * constructor; [reflexivity|].
        destruct (net _) as [resp|err']; cbn.
        -- destruct (data resp); cbn; constructor.
        -- rewrite Hcatch. constructor.
      * rewrite Hcatch. constructor.
    + rewrite Hcatch. constructor.
Qed.

Lemma in_flight_loading (net : network) (st : State) :
  Forall (fun qs => loading (snd qs) = true /\ error (snd qs) = None)
    (in_flight net apply (handleSubmit st) st).
Proof.
  eapply Forall_impl; [|apply in_flight_states].
  intros [q s] Hs; cbn [snd] in *. subst s. split; reflexivity.
Qed.

(** C5, as the code has it.  The submit button is rendered with
    [disabled={loading}].  At every suspension point of a submission
    [loading] is true, so that the button is disabled and no further
    submission is offered while a request is outstanding.  The handler
    itself never reads [loading]: the closure made from a state is the same
    whatever the flag. *)
Theorem loading_disables_submit (net : network) (st : State) :
  select is_submit_button (render st) = [submit_button st]
  /\ is_disabled (submit_button st) = loading st
  /\ Forall (fun qs => loading (snd qs) = true
                       /\ offers_submit (render (snd qs)) = false)
       (in_flight net apply (handleSubmit st) st)
  /\ in_flight net apply (handleSubmit st) st <> []
  /\ handleSubmit (apply (setLoading true) st) = handleSubmit st.
Proof.
  split; [apply submit_buttons_render|]. split; [reflexivity|].
  split; [|split].
  - eapply Forall_impl; [|apply in_flight_loading].
    intros [q s] [Hl _]; cbn [snd] in *. split; [exact Hl|].
    unfold offers_submit. rewrite submit_buttons_render. cbn.
    now rewrite Hl.
  - destruct (in_flight_states net st) as [(rest & ->) _]. discriminate.
  - reflexivity.
Qed.

(** C5 as stated fails: in the state a submission from [u1] is in while its
    read is outstanding, [loading] is true and the form offers no
    submission. *)
Lemma loading_state_offers_no_submit :
  In (read_request u1, u1_loading)
     (in_flight found_empty apply (handleSubmit u1) u1)
  /\ loading u1_loading = true
  /\ offers_submit (render u1_loading) = false.
Proof.
  split; [left; reflexivity|]. split; reflexivity.
Qed.

(** C8, as the code has it.  When the read is rejected with status 500 no
    create request is sent, and the cards on screen are those of the
    recommendations of before the submission: none when that list was
    empty.  The error box shows the fallback string when the [detail] of the
    response is absent or falsy, and ["Error: "] followed by it when it is
    truthy and converts to a string. *)
Theorem server_error_keeps_cards (net : network) (st : State)
  (err : JS.error) :
  net (read_request st) = Rejected err ->
  response_status err = Some 500 ->
  let r := submit net st in
  creates (trace r) = []
  /\ cards (render (final r)) = map render_card (recommendations st)
  /\ (ToBoolean (detail err) = false ->
      error_boxes (render (final r)) =
        [ Elem "div" None [("className", PString "error")]
            [ Text "Failed to get recommendations" ] ])
  /\ (forall text,
        ToBoolean (detail err) = true ->
        ToString (detail err) = Some text ->
        error_boxes (render (final r)) =
          [ Elem "div" None [("className", PString "error")]
              [ Text ("Error: " ++ text) ] ]).
Proof.
  intros Hget Hs r. subst r.
  assert (Hfail : fails_reading net st err).
  { split; [now left|]. rewrite Hs. discriminate. }
  rewrite error_boxes_render, cards_render.
  rewrite (submit_fails_reading net st _ Hfail).
  unfold after_catch, caught, errorMessage.
  split; [|split; [|split]].
  - destruct (ToBoolean _); [destruct (ToString _)|]; reflexivity.
  - destruct (ToBoolean _); [destruct (ToString _)|]; reflexivity.
  - intros ->. reflexivity.
  - intros text -> ->. reflexivity.
Qed.

Lemma server_error_keeps_cards_witness :
  failing empty_detail (read_request u1) = Rejected (server_error empty_detail)
  /\ response_status (server_error empty_detail) = Some 500
  /\ creates (trace (submit (failing empty_detail) u1)) = []
  /\ cards (render (final (submit (failing empty_detail) u1))) = []
  /\ error_boxes (render (final (submit (failing empty_detail) u1))) =
       [ Elem "div" None [("className", PString "error")]
           [ Text "Failed to get recommendations" ] ]
  /\ error_boxes (render (final (submit (failing overloaded) u1))) =
       [ Elem "div" None [("className", PString "error")]
           [ Text "Error: overloaded" ] ].
Proof.
  split; [reflexivity|]. split; [reflexivity|].
  destruct (server_error_keeps_cards (failing empty_detail) u1
              (server_error empty_detail) eq_refl eq_refl)
    as (Hcreate & Hcards & Hfalsy & _).
  destruct (server_error_keeps_cards (failing overloaded) u1
              (server_error overloaded) eq_refl eq_refl)
    as (_ & _ & _ & Htruthy).
  split; [exact Hcreate|]. split; [exact Hcards|].
  split; [exact (Hfalsy eq_refl)|].
  exact (Htruthy "overloaded" eq_refl eq_refl).
Defined.

(** C8 as stated fails: with a card on screen before the submission, a read
    that returns 500 leaves that card on screen. *)
Lemma server_error_leaves_old_card :
  failing overloaded (read_request u1_with_card)
    = Rejected (server_error overloaded)
  /\ response_status (server_error overloaded) = Some 500
  /\ cards (render (final (submit (failing overloaded) u1_with_card)))
     = [render_card c1]
  /\ cards (render (final (submit (failing overloaded) u1_with_card))) <> [].
Proof.
  split; [reflexivity|]. split; [reflexivity|].
  rewrite cards_render. split; [reflexivity | discriminate].
Qed.




End ScreenClaims.

(** * Numbers on screen *)

Section Numbers.

Lemma append_empty_r s : s ++ "" = s.
Proof. induction s as [|c s IH]; cbn; [reflexivity|now rewrite IH]. Qed.

Lemma take_drop n s : take n s ++ drop n s = s.
Proof.
  revert s. induction n as [|n IH]; intros [|c s]; cbn; try reflexivity.
  - fold (take n s). now rewrite IH.
Qed.

Lemma length_append s t : String.length (s ++ t) = (String.length s + String.length t)%nat.
Proof. induction s as [|c s IH]; cbn; [reflexivity|now rewrite IH]. Qed.

Lemma length_drop n s : String.length (drop n s) = (String.length s - n)%nat.
Proof.
  revert s. induction n as [|n IH]; intros [|c s]; cbn; try reflexivity.
  apply IH.
Qed.

Lemma length_take n s : (n <= String.length s)%nat -> String.length (take n s) = n.
Proof.
  intros H. pose proof (f_equal String.length (take_drop n s)) as E.
  rewrite length_append, length_drop in E. lia.
Qed.

Lemma length_zeros n : String.length (zeros n) = n.
Proof. induction n; cbn; congruence. Qed.

Lemma take_append a t : take (String.length a) (a ++ t) = a.
Proof.
  induction a as [|c a IH]; cbn.
  - destruct t; reflexivity.
  - fold (take (String.length a) (a ++ t)). now rewrite IH.
Qed.

Lemma get_append a c t : String.get (String.length a) (a ++ String c t) = Some c.
Proof. induction a as [|c' a IH]; cbn; [reflexivity|exact IH]. Qed.

Lemma uint_of_string_zeros j s :
  NilEmpty.uint_of_string (zeros j ++ s) = option_map (Nat.iter j D0) (NilEmpty.uint_of_string s).
Proof.
  induction j as [|j IH]; cbn.
  - now destruct (NilEmpty.uint_of_string s).
  - rewrite IH. now destruct (NilEmpty.uint_of_string s).
Qed.

Lemma of_uint_zeros j d : N.of_uint (Nat.iter j D0 d) = N.of_uint d.
Proof. induction j as [|j IH]; cbn; [reflexivity|exact IH]. Qed.

Lemma uint_of_string_digits n :
  NilEmpty.uint_of_string (digits n) = Some (N.to_uint (Z.to_N n)).
Proof. apply NilEmpty.usu. Qed.

Lemma digits_nonempty n : (1 <= String.length (digits n))%nat.
Proof.
  unfold digits. destruct (Z.to_N n) as [|p]; cbn; [lia|].
  pose proof (DecimalPos.Unsigned.to_uint_nonnil p) as H.
  destruct (Pos.to_uint p); cbn; try lia. congruence.
Qed.

(** a string of digits does not start with a minus sign *)
Lemma digit_not_minus c s d :
  NilEmpty.uint_of_string (String c s) = Some d -> c <> "-"%char.
Proof.
  cbn. destruct (NilEmpty.uint_of_string s) as [d'|]; [|discriminate].
  intros H ->. discriminate.
Qed.

Lemma hundredths_of_point a b d :
  a <> "" -> String.length b = 2%nat ->
  NilEmpty.uint_of_string (a ++ b) = Some d ->
  hundredths_of (a ++ "." ++ b) = Some (Z.of_N (N.of_uint d)).
Proof.
  intros Ha Hb Hd.
  assert (Hlen : String.length (a ++ "." ++ b) = (String.length a + 3)%nat).
  { rewrite !length_append, Hb. cbn. lia. }
  assert (Hpos : (1 <= String.length a)%nat).
  { destruct a; [congruence|cbn; lia]. }
  unfold hundredths_of. cbv zeta. rewrite Hlen.
  destruct (Nat.ltb_spec (String.length a + 3) 4) as [H|H]; [lia|].
  replace (String.length a + 3 - 3)%nat with (String.length a) by lia.
  replace (String.length a + 3 - 2)%nat with (S (String.length a)) by lia.
  change (a ++ "." ++ b) with (a ++ String "." b).
  rewrite get_append, take_append.
  change (Ascii.eqb "." ".") with true. cbv iota.
  replace (drop (S (String.length a)) (a ++ String "." b)) with b.
  - now rewrite Hd.
  - clear. induction a as [|c a IH]; cbn; [reflexivity|exact IH].
Qed.

Lemma two_decimal_places_point (neg : bool) a b d :
  a <> "" -> String.length b = 2%nat ->
  NilEmpty.uint_of_string (a ++ b) = Some d ->
  two_decimal_places ((if neg then "-" else "") ++ a ++ "." ++ b)
  = Some (neg, Z.of_N (N.of_uint d)).
Proof.
  intros Ha Hb Hd.
  pose proof (hundredths_of_point a b d Ha Hb Hd) as Hh.
  destruct neg.
  - change ("-" ++ a ++ "." ++ b) with (String "-" (a ++ "." ++ b)).
    unfold two_decimal_places. change (Ascii.eqb "-" "-") with true.
    cbv iota. now rewrite Hh.
  - change ("" ++ a ++ "." ++ b) with (a ++ "." ++ b).
    destruct a as [|c a]; [congruence|].
    assert (Hc : c <> "-"%char) by (eapply digit_not_minus; exact Hd).
    change ((String c a) ++ "." ++ b) with (String c (a ++ "." ++ b)) in *.
    unfold two_decimal_places.
    destruct (Ascii.eqb_spec c "-") as [->|_]; [congruence|].
    now rewrite Hh.
Qed.

(** the digits of [n] with the point before the last two *)
Lemma point_before_last_digits n :
  (0 <= n)%Z ->
  exists a b d,
    point_before_last 2 (digits n) = a ++ "." ++ b
    /\ a <> "" /\ String.length b = 2%nat
    /\ NilEmpty.uint_of_string (a ++ b) = Some d
    /\ Z.of_N (N.of_uint d) = n.
Proof.
  intros Hn. unfold point_before_last.
  set (m := digits n). set (k := String.length m).
  set (m' := if (k <=? 2)%nat then zeros (2 + 1 - k) ++ m else m).
  set (k' := if (k <=? 2)%nat then (2 + 1)%nat else k).
  assert (Hk : (1 <= k)%nat) by apply digits_nonempty.
  assert (Hk' : String.length m' = k' /\ (3 <= k')%nat).
  { subst m' k'. destruct (Nat.leb_spec k 2).
    - rewrite length_append, length_zeros. fold k. lia.
    - fold k. lia. }
  destruct Hk' as [Hlen Hk3].
  assert (Hm' : exists j, m' = zeros j ++ m).
  { subst m'. destruct (k <=? 2)%nat; [eauto|]. now exists 0%nat. }
  destruct Hm' as [j Hj].
  exists (take (k' - 2) m'), (drop (k' - 2) m'),
         (Nat.iter j D0 (N.to_uint (Z.to_N n))).
  split; [reflexivity|]. split; [|split; [|split]].
  - intros E. apply (f_equal String.length) in E.
    rewrite length_take in E by lia. cbn in E. lia.
  - rewrite length_drop. lia.
  - rewrite take_drop, Hj, uint_of_string_zeros.
    subst m. now rewrite uint_of_string_digits.
  - rewrite of_uint_zeros, DecimalN.Unsigned.of_to. lia.
Qed.

Lemma magnitude_pos m e : (0 < magnitude m e)%Q.
Proof.
  unfold magnitude. apply Qmult_lt_0_compat; [reflexivity|].
  unfold pow2. destruct (0 <=? e)%Z eqn:He; [|reflexivity].
  apply Z.leb_le in He.
  assert (0 < 2 ^ e)%Z by (apply Z.pow_pos_nonneg; lia).
  unfold Qlt, inject_Z. cbn [Qnum Qden]. lia.
Qed.

Lemma nearest_scaled_spec f x :
  (0 <= x)%Q ->
  (0 <= nearest_scaled f x)%Z
  /\ (inject_Z (nearest_scaled f x) - (1 # 2) <= x * inject_Z (10 ^ Z.of_nat f))%Q
  /\ (x * inject_Z (10 ^ Z.of_nat f) < inject_Z (nearest_scaled f x) + (1 # 2))%Q.
Proof.
  intros Hx. unfold nearest_scaled.
  set (y := (x * inject_Z (10 ^ Z.of_nat f) + (1 # 2))%Q).
  assert (Hy : (0 <= y)%Q).
  { subst y.
    assert (0 < 10 ^ Z.of_nat f)%Z by (apply Z.pow_pos_nonneg; lia).
    assert (0 <= inject_Z (10 ^ Z.of_nat f))%Q
      by (unfold Qle, inject_Z; cbn; lia).
    assert (0 <= x * inject_Z (10 ^ Z.of_nat f))%Q
      by (apply Qmult_le_0_compat; assumption).
    lra. }
  pose proof (Qfloor_le y) as H1.
  pose proof (Qlt_floor y) as H2.
  rewrite inject_Z_plus in H2.
  split; [|split].
  - change 0%Z with (Qfloor 0). now apply Qfloor_resp_le.
  - subst y. lra.
  - subst y. change (inject_Z 1) with 1%Q in H2. lra.
Qed.

Lemma toFixed_two_decimals x :
  below_1e21 x = true ->
  exists n,
    two_decimal_places (toFixed 2 x) = Some (is_negative x, n)
    /\ (inject_Z n - (1 # 2) <= Qabs (real x) * 100)%Q
    /\ (Qabs (real x) * 100 < inject_Z n + (1 # 2))%Q.
Proof.
  destruct x as [s|s| |s m e]; cbn [below_1e21]; try discriminate; intros Hx.
  - exists 0%Z. split; [reflexivity|]. split; now vm_compute.
  - pose proof (magnitude_pos m e) as Hpos.
    assert (Habs : (Qabs (real (S754_finite s m e)) == magnitude m e)%Q).
    { cbn [real]. destruct s.
      - rewrite Qabs_opp. apply Qabs_pos. lra.
      - apply Qabs_pos. lra. }
    destruct (nearest_scaled_spec 2 (magnitude m e)) as (Hn & Hlo & Hhi);
      [lra|].
    change (inject_Z (10 ^ Z.of_nat 2)) with 100%Q in Hlo, Hhi.
    exists (nearest_scaled 2 (magnitude m e)).
    split; [|rewrite Habs; split; assumption].
    unfold toFixed. unfold Qltb in Hx. unfold Qleb.
    apply negb_true_iff in Hx. rewrite Hx.
    destruct (point_before_last_digits _ Hn) as (a & b & d & -> & Ha & Hb & Hd & <-).
    cbn [is_negative].
    now apply two_decimal_places_point.
Qed.

(** What [candidate] returns has [k] digits and rounds back to the
    number. *)
Lemma candidate_sound m e n k s :
  candidate m e n k = Some s ->
  (10 ^ (k - 1) <= s < 10 ^ k)%Z
  /\ rounds_to m e (inject_Z s * pow10 (n - k))%Q = true.
Proof.
  intros H. unfold candidate in H. cbv zeta in H.
  repeat
    (match type of H with
     | (if ?b then _ else _) = _ =>
         let Hb := fresh "Hb" in
         destruct b eqn:Hb;
         [ injection H as <-;
           apply andb_true_iff in Hb as [Hb Hr];
           apply andb_true_iff in Hb as [Hlo Hhi];
           apply Z.leb_le in Hlo; apply Z.ltb_lt in Hhi; auto
         | ]
     end).
  discriminate.
Qed.

(** The decoded literals are the binary64 values nearest to the decimal
    numbers written in the source and in the scenarios. *)
Lemma literals_rounded :
  App.number_0_1 = S754_finite false 7205759403792794 (-56)
  /\ rounds_to 7205759403792794 (-56) (1 # 10) = true
  /\ App.number_0_5 = S754_finite false 4503599627370496 (-53)
  /\ rounds_to 4503599627370496 (-53) (5 # 10) = true
  /\ Examples.number_0_873 = S754_finite false 7863284949388886 (-53)
  /\ rounds_to 7863284949388886 (-53) (873 # 1000) = true
  /\ Examples.number_1e21 = S754_finite false 7629394531250000 17
  /\ (real Examples.number_1e21 == pow10 21)%Q.
Proof. repeat split; vm_compute; reflexivity. Qed.

End Numbers.

Section CardClaims.

Import App Submission Examples.

(** C7, as the code has it.  The recommendations section is a function of
    the state alone.  For the empty list there is no section and no card.
    For a non-empty list there is one section holding one card per entry, in
    order; the card of an entry has the entry's [chatroom_id] as its key and
    shows ["Chatroom "] with the identifier and ["Score: "] with
    [predicted_score.toFixed(2)].  For zero and for a finite score of
    magnitude below [10^21] that text is the score to two decimal places: an
    optional minus sign, digits, a point and two digits, reading as the
    number of hundredths nearest to the magnitude of the score, the larger
    one when two are equally near. *)
Theorem cards_project_recommendations (st : State) :
  sections (render st) =
    match recommendations st with
    | [] => []
    | _ :: _ =>
        [ Elem "div" None [("className", PString "recommendations")]
            [ Elem "h2" None [] [Text "Recommended Chatrooms"];
              Elem "div" None [("className", PString "cards")]
                (cards (render st)) ] ]
    end
  /\ cards (render st) = map render_card (recommendations st)
  /\ List.length (cards (render st)) = List.length (recommendations st)
  /\ Forall
       (fun rec =>
          key_of (render_card rec) = Some (chatroom_id rec)
          /\ text_content (render_card rec) =
               "Chatroom " ++ chatroom_id rec
               ++ "Score: " ++ toFixed 2 (predicted_score rec)
          /\ (below_1e21 (predicted_score rec) = true ->
              exists n,
                two_decimal_places (toFixed 2 (predicted_score rec))
                = Some (is_negative (predicted_score rec), n)
                /\ (inject_Z n - (1 # 2)
                    <= Qabs (real (predicted_score rec)) * 100)%Q
                /\ (Qabs (real (predicted_score rec)) * 100
                    < inject_Z n + (1 # 2))%Q))
       (recommendations st).
Proof.
  rewrite sections_render, cards_render. split; [|split; [|split]].
  - unfold render_recommendations. now destruct (recommendations st).
  - reflexivity.
  - apply length_map.
  - apply Forall_forall. intros rec _. split; [reflexivity|]. split.
    + cbn. now rewrite !append_empty_r.
    + apply toFixed_two_decimals.
Qed.

Lemma cards_project_recommendations_witness :
  cards (render u1_with_card) = [render_card c1]
  /\ text_content (render_card c1) = "Chatroom c1Score: 0.87"
  /\ below_1e21 (predicted_score c1) = true
  /\ exists n,
       two_decimal_places "0.87" = Some (false, n)
       /\ (inject_Z n - (1 # 2) <= Qabs (real number_0_873) * 100)%Q
       /\ (Qabs (real number_0_873) * 100 < inject_Z n + (1 # 2))%Q.
Proof.
  destruct (cards_project_recommendations u1_with_card)
    as (_ & Hcards & _ & Hall).
  split; [exact Hcards|]. split; [reflexivity|]. split; [reflexivity|].
  exact (proj2 (proj2 (Forall_inv Hall)) eq_refl).
Defined.

(** C7 as stated fails for a score of [10^21]: [toFixed(2)] writes it as
    ["1e+21"], which has no decimal places. *)
Lemma huge_score_not_two_decimals :
  cards (render (apply (setRecommendations [huge]) u1)) = [render_card huge]
  /\ text_content (render_card huge) = "Chatroom c2Score: 1e+21"
  /\ two_decimal_places (toFixed 2 (predicted_score huge)) = None.
Proof.
  split; [now rewrite cards_render|]. split; vm_compute; reflexivity.
Qed.

End CardClaims.

(** * More about a submission *)

Section MoreOfSubmit.

Import App Submission Examples Scenarios.

#[local] Arguments String.append : simpl never.

(** The courses of a submission, each with the result it gives; in the two
    that fail, whether the outer [catch] gets to its message. *)
Ltac courses net st :=
  let resp := fresh "resp" in
  let recs := fresh "recs" in
  let err := fresh "err" in
  let Hget := fresh "Hget" in
  let Hdata := fresh "Hdata" in
  let Hs := fresh "Hs" in
  let Hpost := fresh "Hpost" in
  let Hfail := fresh "Hfail" in
  let msg := fresh "msg" in
  let Hmsg := fresh "Hmsg" in
  destruct (submit_cases net st)
    as [(resp & recs & Hget & Hdata)
       | [(err & Hfail)
         | [(err & resp & recs & Hget & Hs & Hpost & Hdata)
           | (err & Hfail)]]];
  [ rewrite (submit_read_fulfilled net st _ _ Hget Hdata)
  | rewrite (submit_fails_reading net st _ Hfail);
    unfold catch_outcome, after_catch, caught;
    destruct (errorMessage err) as [msg|] eqn:Hmsg
  | rewrite (submit_create_fulfilled net st _ _ _ Hget Hs Hpost Hdata)
  | rewrite (submit_fails_creating net st _ Hfail);
    unfold catch_outcome, after_catch, caught;
    destruct (errorMessage err) as [msg|] eqn:Hmsg ].

Lemma errorMessage_not_empty (err : JS.error) (msg : string) :
  errorMessage err = Some msg -> msg <> "".
Proof.
  unfold errorMessage. destruct (ToBoolean (detail err)).
  - destruct (ToString (detail err)); cbn; intros [= <-]; discriminate.
  - intros [= <-]. discriminate.
Qed.

(** X2. Every submission sends the read request first and exactly once,
    and at most one request after it, the create request; the create request
    is sent exactly when the read was rejected with status 404.  There is no
    retry of either call. *)
Theorem read_first_create_on_miss (net : network) (st : State) :
  let r := submit net st in
  (requests (trace r) = [read_request st]
   \/ requests (trace r) = [read_request st; create_request st])
  /\ (creates (trace r) <> [] <->
      exists err, net (read_request st) = Rejected err
                  /\ response_status err = Some 404).
Proof.
  assert (Hread : forall err,
            fails_reading net st err ->
            ~ exists err0, net (read_request st) = Rejected err0
                           /\ response_status err0 = Some 404).
  { intros err [[Hf|(r0 & Hf & _)] Hne] (e & He & Hs); congruence. }
  assert (Hcreate : forall err,
            fails_creating net st err ->
            exists err0, net (read_request st) = Rejected err0
                         /\ response_status err0 = Some 404).
  { intros err (e0 & He & Hs & _). eauto. }
  intros r; subst r. courses net st; cbn.
  - split; [now left|]. split; [congruence|].
    intros (e & He & _). congruence.
  - split; [now left|]. split; [congruence|].
    intros H. now apply (Hread _ Hfail) in H.
  - split; [now left|]. split; [congruence|].
    intros H. now apply (Hread _ Hfail) in H.
  - split; [now right|]. split; [eauto|discriminate].
  - split; [now right|]. split; [eauto|discriminate].
  - split; [now right|]. split; [eauto|discriminate].
Qed.

Lemma read_first_create_on_miss_witness :
  requests (trace (submit miss_then_refused u1))
  = [read_request u1; create_request u1]
  /\ creates (trace (submit miss_then_refused u1)) <> []
  /\ exists err, miss_then_refused (read_request u1) = Rejected err
                 /\ response_status err = Some 404.
Proof.
  assert (Hc : creates (trace (submit miss_then_refused u1)) <> [])
    by discriminate.
  split; [reflexivity|]. split; [exact Hc|].
  exact (proj1 (proj2 (read_first_create_on_miss miss_then_refused u1)) Hc).
Defined.

(** X3. A submission ends in one of three ways.  Either
    [setRecommendations] is called once, the error stays null, and nothing is
    logged; or [setError] is called with a non-empty message followed by one
    [console.error], and the list is left alone; or the template literal of
    the outer [catch] throws, and then neither [setRecommendations] nor
    [setError] with a message nor [console.error] is called, and the handler
    throws.  In all three [setLoading(false)] is the last effect. *)
Theorem submission_ends_one_way (net : network) (st : State) :
  let r := submit net st in
  (exists l,
     actions (trace r) =
       [ preventDefault; setLoading true; setError None;
         setRecommendations l; setLoading false ]
     /\ recommendations (final r) = l /\ error (final r) = None)
  \/ (exists msg args,
        actions (trace r) =
          [ preventDefault; setLoading true; setError None;
            setError (Some msg); console_error args; setLoading false ]
        /\ msg <> "" /\ error (final r) = Some msg
        /\ recommendations (final r) = recommendations st)
  \/ (actions (trace r) =
        [ preventDefault; setLoading true; setError None; setLoading false ]
      /\ outcome r = Throw cannot_convert
      /\ error (final r) = None
      /\ recommendations (final r) = recommendations st).
Proof.
  intros r; subst r. courses net st; cbn.
  - left. eauto.
  - right. left. unfold log_line.
    pose proof (errorMessage_not_empty _ _ Hmsg). eauto 10.
  - right. right. repeat split.
  - left. eauto.
  - right. left. unfold log_line.
    pose proof (errorMessage_not_empty _ _ Hmsg). eauto 10.
  - right. right. repeat split.
Qed.

(** X4. The result of a submission does not depend on the error or the
    loading flag the state held before: both are overwritten at the start.
    When the submission replaces the list, the state it ends in does not
    depend on the list held before either. *)
Theorem earlier_results_leave_no_trace (net : network) (st : State)
  (b : bool) (e : option string) (l : list Recommendation) :
  submit net (apply (setError e) (apply (setLoading b) st)) = submit net st
  /\ (replacements (trace (submit net st)) <> [] ->
      final (submit net (apply (setRecommendations l) st))
      = final (submit net st)).
Proof.
  split; [reflexivity|].
  set (st' := apply (setRecommendations l) st).
  courses net st.
  - intros _.
    rewrite (submit_read_fulfilled net st' resp recs Hget Hdata). reflexivity.
  - cbn [trace]. intros H. now contradiction H.
  - cbn [trace]. intros H. now contradiction H.
  - intros _.
    rewrite (submit_create_fulfilled net st' err resp recs Hget Hs Hpost
               Hdata).
    reflexivity.
  - cbn [trace]. intros H. now contradiction H.
  - cbn [trace]. intros H. now contradiction H.
Qed.

Lemma earlier_results_leave_no_trace_witness :
  replacements (trace (submit found_empty u1)) <> []
  /\ final (submit found_empty u1_with_card) = final (submit found_empty u1).
Proof.
  assert (H : replacements (trace (submit found_empty u1)) <> [])
    by discriminate.
  split; [exact H|].
  exact (proj2 (earlier_results_leave_no_trace found_empty u1 false None [c1])
           H).
Defined.

(** X5. As long as the network answers the same, submitting again changes
    nothing: the second submission sends the same requests and ends in the
    state the first one ended in. *)
Theorem resubmission_changes_nothing (net : network) (st : State) :
  let st1 := final (submit net st) in
  final (submit net st1) = st1
  /\ trace (submit net st1) = trace (submit net st).
Proof.
  cbv zeta. courses net st; cbn [final trace].
  - rewrite (submit_read_fulfilled net _ resp recs);
      [split; reflexivity | exact Hget | exact Hdata].
  - rewrite (submit_fails_reading net _ err); [|exact Hfail].
    unfold after_catch, caught. rewrite Hmsg. split; reflexivity.
  - rewrite (submit_fails_reading net _ err); [|exact Hfail].
    unfold after_catch, caught. rewrite Hmsg. split; reflexivity.
  - rewrite (submit_create_fulfilled net _ err resp recs);
      [split; reflexivity | exact Hget | exact Hs | exact Hpost
      | exact Hdata].
  - rewrite (submit_fails_creating net _ err); [|exact Hfail].
    unfold after_catch, caught. rewrite Hmsg. split; reflexivity.
  - rewrite (submit_fails_creating net _ err); [|exact Hfail].
    unfold after_catch, caught. rewrite Hmsg. split; reflexivity.
Qed.

Lemma ToString_objects items :
  forallb plain_object items = true ->
  ToString (VArray items)
  = Some (String.concat "," (map (fun _ => "[object Object]") items)).
Proof.
  induction items as [|v items IH]; [reflexivity|].
  cbn [forallb]. intros H. apply andb_true_iff in H as [Hv Hitems].
  destruct v; try discriminate.
  cbn [plain_object] in Hv. apply negb_true_iff in Hv.
  specialize (IH Hitems).
  destruct items as [|v' items]; [cbn; now rewrite Hv|].
  change (ToString (VArray (VObject fields :: v' :: items)))
    with (match ToString (VObject fields),
                ToString (VArray (v' :: items)) with
          | Some a, Some b => Some (a ++ "," ++ b)
          | _, _ => None
          end).
  rewrite IH. cbn [ToString]. rewrite Hv. reflexivity.
Qed.

(** X7. When the [detail] of the failure that reaches the outer [catch] is
    a list of objects, none of them with a field [toString], as in the
    validation errors of the API, the message holds none of their content:
    it is ["Error: "] followed by ["[object Object]"] once per item,
    separated by commas, and a bare ["Error: "] for the empty list. *)
Theorem list_detail_shows_object_Object (net : network) (st : State)
  (err : JS.error) (items : list value) :
  reaches_outer_catch net st err ->
  detail err = VArray items ->
  forallb plain_object items = true ->
  error (final (submit net st))
  = Some ("Error: " ++ String.concat ","
                         (map (fun _ => "[object Object]") items)).
Proof.
  intros Hr Hd Hitems.
  refine (proj1 (outer_catch_result net st err _ Hr _)).
  unfold errorMessage. rewrite Hd. cbn [ToBoolean].
  now rewrite ToString_objects.
Qed.

Lemma list_detail_shows_object_Object_witness :
  reaches_outer_catch (failing validation_errors) u1
    (server_error validation_errors)
  /\ error (final (submit (failing validation_errors) u1))
     = Some "Error: [object Object],[object Object]".
Proof.
  assert (H : reaches_outer_catch (failing validation_errors) u1
                (server_error validation_errors)).
  { left. split; [now left|discriminate]. }
  split; [exact H|].
  exact (list_detail_shows_object_Object (failing validation_errors) u1
           (server_error validation_errors) _ H eq_refl eq_refl).
Defined.

(** X8. When the failure that reaches the outer [catch] has no response,
    or a response whose body is not a JSON object (a string, a number, a
    list, [null]), the message is the fallback string; what is logged is the
    body when it is truthy and the error's own message otherwise. *)
Theorem body_without_fields_gives_fallback (net : network) (st : State)
  (err : JS.error) :
  reaches_outer_catch net st err ->
  is_object (response_data err) = false ->
  error (final (submit net st)) = Some "Failed to get recommendations"
  /\ In (Did (console_error
                [ VString "Request failed:";
                  if ToBoolean (response_data err)
                  then response_data err
                  else VString (message err) ]))
        (trace (submit net st)).
Proof.
  intros Hr Hd.
  apply outer_catch_result; [assumption|].
  unfold errorMessage, detail.
  destruct (response_data err); try reflexivity. discriminate.
Qed.

Lemma body_without_fields_gives_fallback_witness :
  reaches_outer_catch (failing bad_gateway) u1 (server_error bad_gateway)
  /\ is_object (response_data (server_error bad_gateway)) = false
  /\ error (final (submit (failing bad_gateway) u1))
     = Some "Failed to get recommendations"
  /\ In (Did (console_error [VString "Request failed:"; bad_gateway]))
        (trace (submit (failing bad_gateway) u1)).
Proof.
  assert (H : reaches_outer_catch (failing bad_gateway) u1
                (server_error bad_gateway)).
  { left. split; [now left|discriminate]. }
  split; [exact H|]. split; [reflexivity|].
  exact (body_without_fields_gives_fallback (failing bad_gateway) u1
           (server_error bad_gateway) H eq_refl).
Defined.

End MoreOfSubmit.

(** * More about the screen *)

Section MoreOfScreen.

Import App Submission Examples Scenarios Inputs.

#[local] Arguments String.append : simpl never.

Lemma in_flight_state (net : network) (st : State) :
  Forall (fun qs => loading (snd qs) = true /\ error (snd qs) = None
                    /\ recommendations (snd qs) = recommendations st)
    (in_flight net apply (handleSubmit st) st).
Proof.
  eapply Forall_impl; [|apply in_flight_states].
  intros [q s] Hs; cbn [snd] in *. subst s. repeat split.
Qed.

(** X6. While a request of a submission is outstanding, the page shows no
    error box, even when the state held an error before; it still shows the
    cards of before the submission; and its button reads ["Loading..."]. *)
Theorem in_flight_view (net : network) (st : State) :
  Forall (fun qs =>
            error_boxes (render (snd qs)) = []
            /\ cards (render (snd qs)) = cards (render st)
            /\ text_content (submit_button (snd qs)) = "Loading...")
    (in_flight net apply (handleSubmit st) st).
Proof.
  eapply Forall_impl; [|apply in_flight_state].
  intros [q s] (Hl & He & Hr); cbn [snd] in *.
  rewrite error_boxes_render, !cards_render, He, Hr.
  unfold submit_button. rewrite Hl. repeat split.
Qed.

(** Outside the form the page has no control: what a selector of inputs,
    options or buttons finds is in the form. *)
Lemma controls_in_form p (st : State) :
  p (render st) = false ->
  p (Elem "h1" None [] [Text "Grok MeetU"]) = false ->
  p (Text "Grok MeetU") = false ->
  (forall cs, p (Elem "div" None [className "container"] cs) = false) ->
  flat_map (select p) (render_error (error st)) = [] ->
  flat_map (select p) (render_recommendations (recommendations st)) = [] ->
  select p (render st) = select p (render_form st).
Proof.
  intros Happ Hh1 Htext Hcont Herr Hrecs.
  rewrite select_render. cbv zeta.
  rewrite Happ, Hcont, Herr, Hrecs, select_Elem, Hh1.
  cbn [flat_map select]. rewrite Htext.
  cbn [List.app]. now rewrite !app_nil_r.
Qed.

Lemma no_control_in_error p (e : option string) :
  (forall cs, p (Elem "div" None [className "error"] cs) = false) ->
  (forall s, p (Text s) = false) ->
  flat_map (select p) (render_error e) = [].
Proof.
  intros Hdiv Htext. destruct e as [e|]; [|reflexivity].
  unfold render_error. destruct (e =? "")%string; [reflexivity|].
  cbn [flat_map]. rewrite select_Elem, Hdiv.
  cbn [flat_map select]. now rewrite Htext.
Qed.

Lemma no_control_in_recommendations p (recs : list Recommendation) :
  (forall tag, tag <> "input" -> tag <> "option" -> tag <> "button" ->
     forall key props cs, p (Elem tag key props cs) = false) ->
  (forall s, p (Text s) = false) ->
  flat_map (select p) (render_recommendations recs) = [].
Proof.
  intros Htag Htext. unfold render_recommendations.
  destruct recs as [|rec recs]; [reflexivity|].
  change (0 <? List.length (rec :: recs))%nat with true. cbv iota.
  cbn [flat_map]. rewrite !select_Elem. cbn [flat_map].
  rewrite !select_Elem. cbn [flat_map select].
  rewrite !Htag by discriminate. rewrite Htext.
  rewrite select_cards_none; [reflexivity|].
  intros r. unfold render_card. rewrite !select_Elem. cbn [flat_map].
  rewrite !select_Elem. cbn [flat_map select].
  rewrite !Htag by discriminate. now rewrite !Htext.
Qed.

Lemma inputs_render (st : State) :
  existsb required_but_empty (select is_input (render st))
  = (userId st =? "")%string.
Proof.
  rewrite controls_in_form; try reflexivity.
  - cbn. now rewrite !orb_false_r.
  - now apply no_control_in_error.
  - apply no_control_in_recommendations; [|reflexivity].
    intros tag Hi _ _ key props cs. cbn. now apply String.eqb_neq.
Qed.

Lemma option_values_render (st : State) :
  option_values (render st) = ["none"; "partial"; "full"].
Proof.
  unfold option_values. rewrite controls_in_form; try reflexivity.
  - now apply no_control_in_error.
  - apply no_control_in_recommendations; [|reflexivity].
    intros tag _ Ho _ key props cs. cbn. now apply String.eqb_neq.
Qed.

(** X9. Whenever [loading] is true or [userId] is empty, the browser
    refuses to submit the form, because of the disabled button or of the
    [required] user id, and [handleSubmit] is not called. *)
Theorem form_blocked (st : State) :
  loading st = true \/ userId st = "" ->
  blocked (render st) = true.
Proof.
  unfold blocked, offers_submit.
  rewrite inputs_render, submit_buttons_render. cbn.
  rewrite orb_false_r, negb_involutive.
  intros [-> | ->]; [reflexivity | apply orb_true_r].
Qed.

Lemma form_blocked_witness :
  userId initial = ""
  /\ loading u1_loading = true
  /\ blocked (render initial) = true
  /\ blocked (render u1_loading) = true.
Proof.
  split; [reflexivity|]. split; [reflexivity|]. split.
  - exact (form_blocked initial (or_intror eq_refl)).
  - exact (form_blocked u1_loading (or_introl eq_refl)).
Defined.

Lemma NoDup_map_Some {A} (l : list A) :
  NoDup l -> NoDup (map Some l).
Proof.
  induction 1 as [|a l Hin Hnd IH]; cbn; constructor; [|exact IH].
  intros H. apply in_map_iff in H as (b & [= ->] & Hb). contradiction.
Qed.

(** X10. The keys of the cards are the chatroom ids of the list, in order
    and with no deduplication: they are pairwise distinct, as React wants
    the keys of siblings to be, exactly when the chatroom ids of the list
    are. *)
Theorem card_keys_distinct (st : State) :
  map key_of (cards (render st))
  = map (fun rec => Some (chatroom_id rec)) (recommendations st)
  /\ (NoDup (map key_of (cards (render st)))
      <-> NoDup (map chatroom_id (recommendations st))).
Proof.
  rewrite cards_render, map_map.
  split; [reflexivity|].
  change (fun x => key_of (render_card x))
    with (fun x => Some (chatroom_id x)).
  rewrite <- (map_map chatroom_id Some).
  split; [apply NoDup_map_inv | apply NoDup_map_Some].
Qed.

Lemma card_keys_distinct_witness :
  map key_of (cards (render twice)) = [Some "c1"; Some "c1"]
  /\ ~ NoDup (map chatroom_id (recommendations twice))
  /\ ~ NoDup (map key_of (cards (render twice))).
Proof.
  destruct (card_keys_distinct twice) as [Hkeys Hiff].
  assert (Hdup : ~ NoDup (map chatroom_id (recommendations twice))).
  { intros H. inversion H as [|x l Hin _]. apply Hin. now left. }
  split; [exact Hkeys|]. split; [exact Hdup|].
  intros H. exact (Hdup (proj1 Hiff H)).
Defined.

Lemma Qfloor_between (q : Q) (z : Z) :
  (inject_Z z <= q)%Q -> (q < inject_Z z + 1)%Q -> Qfloor q = z.
Proof.
  intros Hlo Hhi.
  pose proof (Qfloor_le q) as H1.
  pose proof (Qlt_floor q) as H2. rewrite inject_Z_plus in H2.
  change (inject_Z 1) with 1%Q in H2.
  assert (Ha : (inject_Z (Qfloor q) < inject_Z z + 1)%Q) by lra.
  assert (Hb : (inject_Z z < inject_Z (Qfloor q) + 1)%Q) by lra.
  change 1%Q with (inject_Z 1) in Ha, Hb.
  rewrite <- inject_Z_plus in Ha, Hb.
  rewrite <- Zlt_Qlt in Ha, Hb. lia.
Qed.

(** X11. A negative score of magnitude below 0.005 keeps its sign on the
    card although it rounds to zero: the card shows ["Score: -0.00"]. *)
Theorem tiny_negative_score_shows_minus_zero (rec : Recommendation)
  (m : positive) (e : Z) :
  predicted_score rec = S754_finite true m e ->
  (magnitude m e < 1 # 200)%Q ->
  text_content (render_card rec)
  = "Chatroom " ++ chatroom_id rec ++ "Score: -0.00".
Proof.
  intros Hscore Hsmall.
  assert (Hfix : toFixed 2 (S754_finite true m e) = "-0.00").
  { unfold toFixed.
    assert (Hrange : Qleb (pow10 21) (magnitude m e) = false).
    { unfold Qleb. destruct (Qle_bool _ _) eqn:H; [|reflexivity].
      apply Qle_bool_iff in H.
      assert (1 # 200 < pow10 21)%Q by reflexivity. lra. }
    rewrite Hrange.
    assert (Hn : nearest_scaled 2 (magnitude m e) = 0).
    { unfold nearest_scaled. apply Qfloor_between.
      - pose proof (magnitude_pos m e).
        change (inject_Z (10 ^ Z.of_nat 2)) with 100%Q.
        change (inject_Z 0) with 0%Q. lra.
      - change (inject_Z (10 ^ Z.of_nat 2)) with 100%Q.
        change (inject_Z 0) with 0%Q. lra. }
    rewrite Hn. reflexivity. }
  unfold render_card. rewrite Hscore, Hfix. cbn.
  now rewrite !append_empty_r.
Qed.

Lemma tiny_negative_score_shows_minus_zero_witness :
  predicted_score slightly_negative
  = S754_finite true 4611686018427388 (-62)
  /\ (magnitude 4611686018427388 (-62) < 1 # 200)%Q
  /\ text_content (render_card slightly_negative)
     = "Chatroom c3Score: -0.00".
Proof.
  split; [reflexivity|]. split; [reflexivity|].
  exact (tiny_negative_score_shows_minus_zero slightly_negative
           4611686018427388 (-62) eq_refl eq_refl).
Defined.

End MoreOfScreen.

(** * More about the inputs *)

Section Parsing.

Import Parse.

Lemma trim_start_no_digit s :
  has_digit s = false -> has_digit (trim_start s) = false.
Proof.
  induction s as [|c s IH]; [reflexivity|].
  unfold has_digit in *. cbn. intros H. apply orb_false_iff in H as [Hc Hs].
  destruct (is_white_space c); [now apply IH|].
  cbn. now rewrite Hc, Hs.
Qed.

Lemma sign_of_no_digit s :
  has_digit s = false -> has_digit (snd (sign_of s)) = false.
Proof.
  destruct s as [|c s]; [reflexivity|].
  unfold has_digit. cbn. intros H. pose proof H as H'.
  apply orb_false_iff in H' as [Hc Hs].
  destruct (Ascii.eqb c "-"); [exact Hs|].
  destruct (Ascii.eqb c "+"); [exact Hs|exact H].
Qed.

Lemma unsigned_literal_no_digit s :
  has_digit s = false ->
  unsigned_literal s = None \/ unsigned_literal s = Some LInfinity.
Proof.
  intros H. unfold unsigned_literal.
  destruct (prefix "Infinity" s); [now right|]. left.
  destruct s as [|c s]; [reflexivity|].
  unfold has_digit in H. cbn in H. apply orb_false_iff in H as [Hc Hs].
  cbn [span_digits]. rewrite Hc.
  destruct (Ascii.eqb c "."); [|reflexivity].
  destruct s as [|c' s]; [reflexivity|].
  cbn in Hs. apply orb_false_iff in Hs as [Hc' Hs].
  cbn [span_digits]. rewrite Hc'. reflexivity.
Qed.

Lemma parseFloat_no_digit s :
  has_digit s = false ->
  parseFloat s = S754_nan
  \/ parseFloat s = S754_infinity false
  \/ parseFloat s = S754_infinity true.
Proof.
  intros H. unfold parseFloat.
  pose proof (sign_of_no_digit _ (trim_start_no_digit _ H)) as Hu.
  destruct (sign_of (trim_start s)) as [neg u]. cbn [snd] in Hu.
  destruct (unsigned_literal_no_digit u Hu) as [-> | ->]; [now left|].
  right. destruct neg; [now right|now left].
Qed.

Lemma all_digits_string_of_uint d :
  all_digits (NilEmpty.string_of_uint d) = true.
Proof.
  unfold all_digits. induction d; cbn; try reflexivity; exact IHd.
Qed.

Lemma digit_is_plain c :
  is_digit c = true ->
  is_white_space c = false /\ Ascii.eqb c "-" = false
  /\ Ascii.eqb c "+" = false /\ Ascii.eqb c "I" = false.
Proof.
  destruct c as [[|] [|] [|] [|] [|] [|] [|] [|]]; cbn; intros H;
    try discriminate; repeat split.
Qed.

Lemma span_all_digits s : all_digits s = true -> span_digits s = (s, "").
Proof.
  unfold all_digits. induction s as [|c s IH]; [reflexivity|].
  cbn. intros H. apply andb_true_iff in H as [Hc Hs].
  rewrite Hc, (IH Hs). reflexivity.
Qed.

Lemma parseFloat_all_digits s :
  all_digits s = true -> s <> "" ->
  parseFloat s = round_binary64 false (inject_Z (value_of_digits s) * pow10 0).
Proof.
  intros Hs Hne. destruct s as [|c s]; [congruence|].
  pose proof Hs as Hs'. unfold all_digits in Hs'. cbn in Hs'.
  apply andb_true_iff in Hs' as [Hc _].
  destruct (digit_is_plain c Hc) as (Hw & Hm & Hp & HI).
  unfold parseFloat. cbn [trim_start]. rewrite Hw.
  cbn [sign_of]. rewrite Hm, Hp.
  unfold unsigned_literal.
  change (prefix "Infinity" (String c s))
    with (if ascii_dec "I" c then prefix "nfinity" s else false).
  destruct (ascii_dec "I" c) as [<-|_]; [discriminate HI|].
  rewrite (span_all_digits _ Hs). reflexivity.
Qed.

Lemma pow2_nonneg_exp e : 0 <= e -> pow2 e = inject_Z (2 ^ e).
Proof. intros H. unfold pow2. now apply Z.leb_le in H as ->. Qed.

Lemma pow2_neg_exp e : e < 0 -> pow2 e = 1 # Z.to_pos (2 ^ (- e)).
Proof.
  intros H. unfold pow2. destruct (Z.leb_spec 0 e); [lia|reflexivity].
Qed.

Lemma nearest_integer_Z q z : (q == inject_Z z)%Q -> nearest_integer q = z.
Proof.
  intros H. unfold nearest_integer.
  assert (Hf : Qfloor q = z) by (rewrite H; apply Qfloor_Z).
  rewrite Hf.
  assert (Hr : Qltb (q - inject_Z z) (1 # 2) = true).
  { unfold Qltb. apply negb_true_iff.
    destruct (Qle_bool _ _) eqn:E; [|reflexivity].
    apply Qle_bool_iff in E. rewrite H in E. lra. }
  now rewrite Hr.
Qed.

Lemma scale_down n e :
  e <= 0 -> (inject_Z n / pow2 e == inject_Z (n * 2 ^ (- e)))%Q.
Proof.
  intros He. assert (Hp : 0 < 2 ^ (- e)) by (apply Z.pow_pos_nonneg; lia).
  destruct (Z.eq_dec e 0) as [->|Hne].
  - cbn. unfold Qeq, Qdiv, Qmult, Qinv; cbn. lia.
  - rewrite pow2_neg_exp by lia.
    set (p := Z.to_pos (2 ^ (- e))).
    assert (Hpp : Z.pos p = 2 ^ (- e)) by (subst p; apply Z2Pos.id; lia).
    rewrite <- Hpp.
    unfold Qeq, Qdiv, Qmult, Qinv. cbn. lia.
Qed.

Lemma round_binary64_integer n :
  0 < n < 2 ^ 53 ->
  exists m e,
    round_binary64 false (inject_Z n * pow10 0) = S754_finite false m e
    /\ (magnitude m e == inject_Z n)%Q.
Proof.
  intros Hn.
  set (l := Z.log2 n).
  assert (Hl : 0 <= l <= 52).
  { subst l. split; [apply Z.log2_nonneg|].
    assert (Z.log2 n < 53) by (apply Z.log2_lt_pow2; lia). lia. }
  assert (Hspec : 2 ^ l <= n < 2 ^ (l + 1)).
  { subst l. replace (Z.log2 n + 1) with (Z.succ (Z.log2 n)) by lia.
    apply Z.log2_spec. lia. }
  assert (Hq : (inject_Z n * pow10 0 == inject_Z n)%Q).
  { change (pow10 0) with 1%Q. lra. }
  exists (Z.to_pos (n * 2 ^ (52 - l))), (l - 52).
  assert (HM : 2 ^ 52 <= n * 2 ^ (52 - l) < 2 ^ 53).
  { replace (2 ^ 52) with (2 ^ l * 2 ^ (52 - l))
      by (rewrite <- Z.pow_add_r by lia; f_equal; lia).
    replace (2 ^ 53) with (2 ^ (l + 1) * 2 ^ (52 - l))
      by (rewrite <- Z.pow_add_r by lia; f_equal; lia).
    assert (0 < 2 ^ (52 - l)) by (apply Z.pow_pos_nonneg; lia).
    nia. }
  split.
  - unfold round_binary64.
    assert (Hle : Qleb (inject_Z n * pow10 0) 0 = false).
    { unfold Qleb. destruct (Qle_bool _ _) eqn:E; [|reflexivity].
      apply Qle_bool_iff in E. rewrite Hq in E.
      unfold Qle in E; cbn in E. lia. }
    rewrite Hle.
    assert (Hb : binade (inject_Z n * pow10 0) = l).
    { unfold binade. change (pow10 0) with (inject_Z 1).
      cbn [Qnum Qden Qmult inject_Z]. rewrite Z.mul_1_r.
      change (Z.log2 (Z.pos (1 * 1))) with 0. rewrite Z.sub_0_r. fold l.
      rewrite pow2_nonneg_exp by lia.
      unfold Qltb. destruct (Qle_bool _ _) eqn:E; [reflexivity|].
      exfalso. apply not_true_iff_false in E. apply E.
      apply Qle_bool_iff. unfold Qle; cbn. lia. }
    rewrite Hb.
    replace (Z.max (l - 52) (-1074)) with (l - 52) by lia.
    assert (Hm : nearest_integer (inject_Z n * pow10 0 / pow2 (l - 52))
                 = n * 2 ^ (52 - l)).
    { apply nearest_integer_Z. rewrite Hq.
      rewrite scale_down by lia. now replace (- (l - 52)) with (52 - l) by lia. }
    rewrite Hm.
    destruct (Z.eqb_spec (n * 2 ^ (52 - l)) (2 ^ 53)); [lia|].
    destruct (Z.eqb_spec (n * 2 ^ (52 - l)) 0); [lia|].
    destruct (Z.ltb_spec 971 (l - 52)); [lia|]. reflexivity.
  - unfold magnitude. rewrite Z2Pos.id by lia.
    destruct (Z.eq_dec l 52) as [->|Hne].
    + cbn. unfold Qeq; cbn. lia.
    + rewrite pow2_neg_exp by lia.
      replace (- (l - 52)) with (52 - l) by lia.
      assert (0 < 2 ^ (52 - l)) by (apply Z.pow_pos_nonneg; lia).
      unfold Qeq, Qmult. cbn [Qnum Qden inject_Z].
      rewrite Pos.mul_1_l, Z2Pos.id by lia. lia.
Qed.

Lemma digits_all_digits n : all_digits (digits n) = true /\ digits n <> "".
Proof.
  split; [apply all_digits_string_of_uint|].
  pose proof (digits_nonempty n). intros E. rewrite E in H. cbn in H. lia.
Qed.

Lemma value_of_digits_digits n : 0 <= n -> value_of_digits (digits n) = n.
Proof.
  intros H. unfold value_of_digits. rewrite uint_of_string_digits.
  rewrite DecimalN.Unsigned.of_to. lia.
Qed.

Lemma parseFloat_digits n :
  0 < n < 2 ^ 53 ->
  exists m e,
    parseFloat (digits n) = S754_finite false m e
    /\ (magnitude m e == inject_Z n)%Q.
Proof.
  intros Hn. destruct (digits_all_digits n) as [Ha Hne].
  rewrite (parseFloat_all_digits _ Ha Hne).
  rewrite value_of_digits_digits by lia.
  now apply round_binary64_integer.
Qed.

End Parsing.

Section MoreOfInputs.

Import App Submission Examples Scenarios Inputs Parse.

#[local] Arguments String.append : simpl never.

(** X12. A change event writes its own input and nothing else:
    [recommendations], [loading] and [error] are as before.  Of two change
    events on the same input, each handled on the page as rendered then, the
    later one decides; two change events on different inputs give the same
    state in either order. *)
Theorem edits_compose (s : State) (i j : input) :
  recommendations (edit s i) = recommendations s
  /\ loading (edit s i) = loading s
  /\ error (edit s i) = error s
  /\ (target i = target j -> edit (edit s i) j = edit s j)
  /\ (target i <> target j -> edit (edit s i) j = edit (edit s j) i).
Proof.
  repeat split.
  - destruct i; reflexivity.
  - destruct i; reflexivity.
  - destruct i; reflexivity.
  - destruct i, j; cbn; intros H; try discriminate; reflexivity.
  - destruct i, j; cbn; intros H; try reflexivity; now contradiction H.
Qed.

Lemma edits_compose_witness :
  target (TypeMotivation "0.7") = target (TypeMotivation "1")
  /\ edit (edit u1 (TypeMotivation "0.7")) (TypeMotivation "1")
     = edit u1 (TypeMotivation "1")
  /\ target (TypeMotivation "0.7") <> target (SelectCreditLevel full)
  /\ edit (edit u1 (TypeMotivation "0.7")) (SelectCreditLevel full)
     = edit (edit u1 (SelectCreditLevel full)) (TypeMotivation "0.7").
Proof.
  assert (Hne : target (TypeMotivation "0.7")
                <> target (SelectCreditLevel full)) by discriminate.
  split; [reflexivity|]. split.
  - exact (proj1 (proj2 (proj2 (proj2
             (edits_compose u1 (TypeMotivation "0.7") (TypeMotivation "1")))))
             eq_refl).
  - split; [exact Hne|].
    exact (proj2 (proj2 (proj2 (proj2
             (edits_compose u1 (TypeMotivation "0.7")
                (SelectCreditLevel full))))) Hne).
Defined.

(** X13. The three threshold handlers of one render each write the whole
    [thresholds] object, built from the [thresholds] of that render.  If two
    of them run before the page is rendered again, the second overwrites the
    first: the field the first one changed is back at the value of the
    render. *)
Theorem same_render_handlers_overwrite (st s : State) (i j : input) :
  on_thresholds i = true ->
  on_thresholds j = true ->
  onChange st j (onChange st i s) = onChange st j s.
Proof.
  destruct i, j; cbn; intros Hi Hj; try discriminate; reflexivity.
Qed.

Lemma same_render_handlers_overwrite_witness :
  on_thresholds (TypeMotivation "0.7") = true
  /\ on_thresholds (SelectCreditLevel full) = true
  /\ motivation
       (thresholds
          (onChange u1 (SelectCreditLevel full)
             (onChange u1 (TypeMotivation "0.7") u1)))
     = number_0_1.
Proof.
  split; [reflexivity|]. split; [reflexivity|].
  exact (f_equal (fun s => motivation (thresholds s))
           (same_render_handlers_overwrite u1 u1 (TypeMotivation "0.7")
              (SelectCreditLevel full) eq_refl eq_refl)).
Defined.

(** X14. The number typed into a threshold input is not clamped to the
    range the input declares: the decimal digits of any integer from 1 up to
    [2^53 - 1] are stored as the number of exactly that value. *)
Theorem typed_integer_not_clamped (st : State) (n : Z) :
  0 < n < 2 ^ 53 ->
  (real (motivation (thresholds (edit st (TypeMotivation (digits n)))))
   == inject_Z n)%Q
  /\ (real (pressure (thresholds (edit st (TypePressure (digits n)))))
      == inject_Z n)%Q.
Proof.
  intros Hn. destruct (parseFloat_digits n Hn) as (m & e & Hp & Hv).
  cbn. rewrite Hp. cbn. split; exact Hv.
Qed.

Lemma typed_integer_not_clamped_witness :
  0 < 5 < 2 ^ 53
  /\ digits 5 = "5"
  /\ (real (motivation (thresholds (edit u1 (TypeMotivation "5")))) == 5)%Q.
Proof.
  assert (H : 0 < 5 < 2 ^ 53) by (split; reflexivity).
  split; [exact H|]. split; [reflexivity|].
  exact (proj1 (typed_integer_not_clamped u1 5 H)).
Defined.

(** X15. A text without any digit, the empty text of a cleared input
    among them, is stored in a threshold as [NaN] or as an infinity: the
    state then holds no number there. *)
Theorem text_without_digit_stores_no_number (st : State) (text : string) :
  has_digit text = false ->
  is_number (motivation (thresholds (edit st (TypeMotivation text)))) = false
  /\ is_number (pressure (thresholds (edit st (TypePressure text)))) = false.
Proof.
  intros H. cbn.
  destruct (parseFloat_no_digit text H) as [-> | [-> | ->]];
    split; reflexivity.
Qed.

Lemma text_without_digit_stores_no_number_witness :
  has_digit "" = false
  /\ motivation (thresholds (edit u1 (TypeMotivation ""))) = S754_nan
  /\ is_number (motivation (thresholds (edit u1 (TypeMotivation ""))))
     = false.
Proof.
  split; [reflexivity|]. split; [reflexivity|].
  exact (proj1 (text_without_digit_stores_no_number u1 "" eq_refl)).
Defined.

(** X16. What is typed into the threshold inputs reaches the create
    request as parsed, with no validation in between: after a change of
    motivation and one of pressure, a submission whose read is rejected with
    status 404 sends the create request with [parseFloat] of the two texts,
    whatever numbers, [NaN] or infinities these are. *)
Theorem typed_thresholds_reach_create (net : network) (st : State)
  (m p : string) (err : JS.error) :
  let st' := edit (edit st (TypeMotivation m)) (TypePressure p) in
  net (read_request st') = Rejected err ->
  response_status err = Some 404 ->
  creates (trace (submit net st')) =
    [ axios_post "http://localhost:8000/recommendations"
        {| PostBody.user_id := userId st;
           PostBody.filters := {| PostBody.top_k := 5 |};
           PostBody.thresholds :=
             {| motivation := parseFloat m;
                pressure := parseFloat p;
                credit_level := credit_level (thresholds st) |} |} ].
Proof.
  intros st' Hget Hs.
  destruct (submit_cases net st')
    as [(resp & recs & Hg & Hdata)
       | [(e & Hfail)
         | [(e & resp & recs & Hg & Hs' & Hpost & Hdata)
           | (e & Hfail)]]].
  - congruence.
  - destruct Hfail as [[Hf|(r0 & Hf & _)] Hne]; congruence.
  - now rewrite (submit_create_fulfilled net st' _ _ _ Hg Hs' Hpost Hdata).
  - rewrite (submit_fails_creating net st' _ Hfail).
    unfold caught. destruct (errorMessage e); reflexivity.
Qed.

Lemma typed_thresholds_reach_create_witness :
  miss_then_created
    (read_request (edit (edit u1 (TypeMotivation "")) (TypePressure "5")))
  = Rejected not_found
  /\ response_status not_found = Some 404
  /\ creates
       (trace (submit miss_then_created
                 (edit (edit u1 (TypeMotivation "")) (TypePressure "5")))) =
       [ axios_post "http://localhost:8000/recommendations"
           {| PostBody.user_id := "u1";
              PostBody.filters := {| PostBody.top_k := 5 |};
              PostBody.thresholds :=
                {| motivation := S754_nan;
                   pressure := number_5;
                   credit_level := "partial" |} |} ].
Proof.
  split; [reflexivity|]. split; [reflexivity|].
  exact (typed_thresholds_reach_create miss_then_created u1 "" "5" not_found
           eq_refl eq_refl).
Defined.

(** *** Changes during a submission *)

Lemma edits_frame (evs : list input) (s : State) :
  recommendations (fold_left edit evs s) = recommendations s
  /\ loading (fold_left edit evs s) = loading s
  /\ error (fold_left edit evs s) = error s.
Proof.
  revert s. induction evs as [|i evs IH]; intros s; [repeat split|].
  cbn [fold_left]. destruct (IH (edit s i)) as (-> & -> & ->).
  destruct i; repeat split.
Qed.

Lemma edits_inputs (evs : list input) (s s' : State) :
  userId s = userId s' -> thresholds s = thresholds s' ->
  userId (fold_left edit evs s) = userId (fold_left edit evs s')
  /\ thresholds (fold_left edit evs s) = thresholds (fold_left edit evs s').
Proof.
  revert s s'. induction evs as [|i evs IH]; intros s s' Hu Ht; [now split|].
  cbn [fold_left]. apply IH.
  - destruct i; cbn; congruence.
  - destruct i; cbn; congruence.
Qed.

Lemma State_eq (s s' : State) :
  userId s = userId s' -> recommendations s = recommendations s' ->
  loading s = loading s' -> error s = error s' ->
  thresholds s = thresholds s' -> s = s'.
Proof. destruct s, s'; cbn; congruence. Qed.

(** Change events and the setters of the handler write different cells. *)
Lemma edits_apply (evs : list input) (a : action) (s : State) :
  fold_left edit evs (apply a s) = apply a (fold_left edit evs s).
Proof.
  destruct (edits_frame evs (apply a s)) as (Hr & Hl & He).
  destruct (edits_frame evs s) as (Hr' & Hl' & He').
  destruct (edits_inputs evs (apply a s) s) as (Hu & Ht);
    [destruct a; reflexivity|destruct a; reflexivity|].
  apply State_eq.
  - rewrite Hu. destruct a; reflexivity.
  - rewrite Hr. destruct a; cbn; congruence.
  - rewrite Hl. destruct a; cbn; congruence.
  - rewrite He. destruct a; cbn; congruence.
  - rewrite Ht. destruct a; reflexivity.
Qed.

Lemma run_after_edits {A} (net : network)
  (p : prog action request answer A) (evs : list input) (s : State) :
  trace (run net apply p (fold_left edit evs s)) = trace (run net apply p s)
  /\ outcome (run net apply p (fold_left edit evs s))
     = outcome (run net apply p s)
  /\ final (run net apply p (fold_left edit evs s))
     = fold_left edit evs (final (run net apply p s)).
Proof.
  revert s. induction p as [c|a k IH|q k IH]; intros s; cbn.
  - repeat split.
  - rewrite <- edits_apply.
    destruct (IH (apply a s)) as (-> & -> & ->). repeat split.
  - destruct (IH (net q) s) as (-> & -> & ->). repeat split.
Qed.

Lemma run_with_edits_run {A} (net : network) (edits : request -> list input)
  (p : prog action request answer A) (s : State) :
  trace (run_with_edits net edits p s) = trace (run net apply p s)
  /\ outcome (run_with_edits net edits p s) = outcome (run net apply p s)
  /\ final (run_with_edits net edits p s)
     = fold_left edit
         (flat_map edits (requests (trace (run net apply p s))))
         (final (run net apply p s)).
Proof.
  revert s. induction p as [c|a k IH|q k IH]; intros s; cbn.
  - repeat split.
  - destruct (IH (apply a s)) as (-> & -> & ->). repeat split.
  - destruct (IH (net q) (fold_left edit (edits q) s)) as (-> & -> & ->).
    destruct (run_after_edits net (k (net q)) (edits q) s) as (-> & -> & ->).
    rewrite fold_left_app. repeat split.
Qed.

(** X17. The inputs stay enabled while a request is outstanding.  Changes
    made then do not reach the submission under way: it sends the requests
    and performs the effects it would have without them, with the user id
    and the thresholds of the render it was started from.  Nor does the
    submission undo the changes: it ends in the state the undisturbed
    submission ends in, with the changes applied. *)
Theorem edits_survive_submission (net : network)
  (edits : request -> list input) (st : State) :
  let r := run_with_edits net edits (handleSubmit st) st in
  trace r = trace (submit net st)
  /\ outcome r = outcome (submit net st)
  /\ final r =
       fold_left edit (flat_map edits (requests (trace r)))
         (final (submit net st)).
Proof.
  cbv zeta. unfold submit.
  destruct (run_with_edits_run net edits (handleSubmit st) st)
    as (Ht & Ho & Hf).
  rewrite Hf, Ht. repeat split; assumption.
Qed.

(** *** Sessions *)

Lemma settled_after (st : State) (ev : ui_event) :
  settled_state st -> settled_state (after st ev).
Proof.
  unfold settled_state. rewrite !option_values_render.
  intros (Hl & He & Hc). destruct ev as [i|net]; cbn [after].
  - destruct i; cbn; repeat split; auto.
    destruct o; cbn; auto.
  - destruct (blocked (render st)); [repeat split; assumption|].
    assert (Hmsg : forall err msg,
              errorMessage err = Some msg -> Some msg <> Some "").
    { intros err msg. unfold errorMessage.
      destruct (ToBoolean (detail err)).
      - destruct (ToString (detail err)); cbn; intros [= <-]; discriminate.
      - intros [= <-]. discriminate. }
    destruct (submit_cases net st)
      as [(resp & recs & Hget & Hdata)
         | [(err & Hfail)
           | [(err & resp & recs & Hget & Hs & Hpost & Hdata)
             | (err & Hfail)]]].
    + rewrite (submit_read_fulfilled net st _ _ Hget Hdata). cbn.
      repeat split; [discriminate|exact Hc].
    + rewrite (submit_fails_reading net st _ Hfail).
      unfold after_catch. destruct (errorMessage err) eqn:E; cbn.
      * repeat split; [now apply (Hmsg err)|exact Hc].
      * repeat split; [discriminate|exact Hc].
    + rewrite (submit_create_fulfilled net st _ _ _ Hget Hs Hpost Hdata).
      cbn. repeat split; [discriminate|exact Hc].
    + rewrite (submit_fails_creating net st _ Hfail).
      unfold after_catch. destruct (errorMessage err) eqn:E; cbn.
      * repeat split; [now apply (Hmsg err)|exact Hc].
      * repeat split; [discriminate|exact Hc].
Qed.

Lemma settled_fold (evs : list ui_event) (st : State) :
  settled_state st -> settled_state (fold_left after evs st).
Proof.
  revert st. induction evs as [|ev evs IH]; intros st H; [exact H|].
  cbn [fold_left]. apply IH. now apply settled_after.
Qed.

(** X18. In every state a user can reach from the mounted page by changing
    inputs and by submissions run to their end, [loading] is false and the
    button enabled, the credit level is the value of one of the options the
    [select] offers, and the error box shows exactly the stored error: it is
    there whenever the error is not null, since no error message is empty. *)
Theorem session_invariant (evs : list ui_event) :
  let st := session evs in
  loading st = false
  /\ offers_submit (render st) = true
  /\ In (credit_level (thresholds st)) (option_values (render st))
  /\ error_boxes (render st) =
       match error st with
       | Some e => [ Elem "div" None [("className", PString "error")]
                       [Text e] ]
       | None => []
       end.
Proof.
  cbv zeta.
  assert (H : settled_state (session evs)).
  { apply settled_fold. unfold settled_state.
    rewrite option_values_render.
    repeat split; [discriminate|]. cbn. auto. }
  destruct H as (Hl & He & Hc).
  split; [exact Hl|]. split; [|split; [exact Hc|]].
  - unfold offers_submit. rewrite submit_buttons_render. cbn.
    now rewrite Hl.
  - rewrite error_boxes_render. unfold render_error.
    destruct (error (session evs)) as [e|]; [|reflexivity].
    destruct (String.eqb_spec e ""); [congruence|reflexivity].
Qed.

End MoreOfInputs.
